(** * logfire: runtime interceptors for asyncio callbacks and FastAPI requests

    A shallow embedding of [src/logfire/_async.py] and
    [src/logfire/integrations/_fastapi.py], and the properties of the two
    interceptors proved about it.

    - [Py]      : the fragment of Python the two files rely on: exceptions
                  with their class ([except Exception] does not catch
                  [KeyboardInterrupt]), computations that return or raise
                  while threading a world, [try]/[except]/[finally].
    - [Async]   : [log_slow_callbacks], [patched_run], [patch_context] and
                  [_callback_attributes].
    - [FastAPI] : [instrument_fastapi] with its two patches
                  [patched_solve_dependencies] and
                  [patched_run_endpoint_function].

    - [PyFloat] : Python's [float], an IEEE 754 binary64 number: the
                  threshold in seconds, its rounded product with
                  [ONE_SECOND_IN_NANOSECONDS], the exact comparison of an
                  [int] with it and the rounded quotient reported as
                  [duration]. *)

From Stdlib Require Import ZArith SpecFloat String List Bool Lia.
From stdpp Require Import base option list gmap strings.

Set Warnings "-register-all".
Local Open Scope string_scope.

(* ================================================================== *)
(** * Python: exceptions, outcomes, effects                            *)
(* ================================================================== *)

Module Py.

(** An exception instance: the name of its class and whether the class
    derives from [Exception].  [KeyboardInterrupt], [SystemExit] and
    [GeneratorExit] derive from [BaseException] only. *)
Record PyExc := mkExc { exc_type : string; is_Exception : bool }.

Definition ValueError : PyExc := mkExc "ValueError" true.
Definition KeyError : PyExc := mkExc "KeyError" true.
Definition RuntimeError : PyExc := mkExc "RuntimeError" true.
Definition AttributeError : PyExc := mkExc "AttributeError" true.
Definition ZeroDivisionError : PyExc := mkExc "ZeroDivisionError" true.
Definition OverflowError : PyExc := mkExc "OverflowError" true.
Definition KeyboardInterrupt : PyExc := mkExc "KeyboardInterrupt" false.

(** What a call does in the end: it returns a value or raises. *)
Inductive outcome (A : Type) : Type :=
| Return (a : A)
| Raise (e : PyExc).
Arguments Return {A} a.
Arguments Raise {A} e.

(** A computation over a world [W]. *)
Definition M (W A : Type) : Type := W -> outcome A * W.

Definition ret {W A} (a : A) : M W A := fun w => (Return a, w).

Definition raise {W A} (e : PyExc) : M W A := fun w => (Raise e, w).

Definition bind {W A B} (c : M W A) (k : A -> M W B) : M W B :=
  fun w =>
    match c w with
    | (Return a, w') => k a w'
    | (Raise e, w') => (Raise e, w')
    end.

(** A pure expression that may raise, evaluated inside a computation. *)
Definition lift {W A} (o : outcome A) : M W A := fun w => (o, w).

(** [try: body except Exception: handler].  Only instances of
    [Exception] are caught; anything else keeps propagating. *)
Definition try_except_Exception {W A} (body handler : M W A) : M W A :=
  fun w =>
    match body w with
    | (Return a, w') => (Return a, w')
    | (Raise e, w') =>
        if is_Exception e then handler w' else (Raise e, w')
    end.

(** [try: body finally: final], for a [final] block that does not raise:
    it runs on both exits and keeps the outcome of [body]. *)
Definition try_finally {W A} (body : M W A) (final : W -> W) : M W A :=
  fun w => let (r, w') := body w in (r, final w').

Declare Scope py_scope.
Delimit Scope py_scope with py.
Notation "'let*' x ':=' c 'in' k" := (bind c (fun x => k))
  (at level 10, x name, c at level 100, k at level 200) : py_scope.
Notation "c ';;;' k" := (bind c (fun _ => k))
  (at level 100, k at level 200, right associativity) : py_scope.

End Py.

Import Py.
Local Open Scope py_scope.

(* ================================================================== *)
(** * Python: floats                                                   *)
(* ================================================================== *)

Module PyFloat.

(** A Python [float] is an IEEE 754 binary64 number: a [spec_float] at
    precision 53 and maximal exponent 1024, with the operations of
    [SpecFloat], which round to nearest, ties to even. *)
Definition float : Type := spec_float.
Definition prec : Z := 53.
Definition emax : Z := 1024.

(** An [int] as an operand of exact arithmetic: its value, not rounded. *)
Definition exact_int (n : Z) : float :=
  match n with
  | Z0 => S754_zero false
  | Zpos m => S754_finite false m 0
  | Zneg m => S754_finite true m 0
  end.

(** [float(n)]: the float nearest to the [int] [n].  (Past the range of
    a float Python raises [OverflowError] where this gives an infinity;
    the one [int] converted here is [ONE_SECOND_IN_NANOSECONDS], which a
    float holds exactly.) *)
Definition float_of_int (n : Z) : float := binary_normalize prec emax n 0 false.

(** [x * y] on two floats. *)
Definition float_mul (x y : float) : float := SFmul prec emax x y.

(** [a / b] on two [int]s: the float nearest to the exact quotient.  It
    raises [ZeroDivisionError] for [b = 0] and [OverflowError] when the
    quotient is too large for a float. *)
Definition int_truediv (a b : Z) : outcome float :=
  if (b =? 0)%Z then Raise ZeroDivisionError
  else
    match SFdiv prec emax (exact_int a) (exact_int b) with
    | S754_infinity _ => Raise OverflowError
    | q => Return q
    end.

(** [n >= x] for an [int] [n] and a float [x].  Python compares the two
    exact values: the [int] is not rounded to a float first.  Nothing is
    [>=] a NaN. *)
Definition int_ge_float (n : Z) (x : float) : bool :=
  match x with
  | S754_nan => false
  | S754_infinity s => s
  | S754_zero _ => (0 <=? n)%Z
  | S754_finite s m e =>
      let v := if s then Zneg m else Zpos m in
      match e with
      | Zneg p => (v <=? n * 2 ^ Zpos p)%Z
      | _ => (v * 2 ^ e <=? n)%Z
      end
  end.

End PyFloat.

Import PyFloat.

(** The levels the two interceptors report at. *)
Inductive Level := debug | warn | error.

(* ================================================================== *)
(** * src/logfire/_async.py                                            *)
(* ================================================================== *)

Module Async.

Definition ONE_SECOND_IN_NANOSECONDS : Z := 1000000000.

(** ** The objects a callback is made of *)

(** [types.CodeType] and [types.FrameType], as far as they are read. *)
Record CodeType := mkCode {
  co_filename : string;
  co_qualname : string;
  co_firstlineno : Z
}.

Record FrameType := mkFrame {
  f_code : CodeType;
  f_lineno : Z
}.

(** What [Task.get_coro()] hands back: an instance of
    [types.CoroutineType], whose [cr_frame] is [None] once it has
    finished, or some other awaitable (a generator-based coroutine, say). *)
Record Coroutine := mkCoroutine {
  cr_frame : option FrameType;
  cr_code : CodeType
}.

Inductive Coro :=
| IsCoroutineType (coro : Coroutine)
| NotCoroutineType.

Record Task := mkTask {
  get_name : string;
  get_coro : Coro
}.

(** The value of [__self__]: an [asyncio.tasks.Task] or anything else. *)
Inductive Receiver :=
| IsTask (task : Task)
| NotTask.

(** Objects live in a store and refer to each other by address, so that
    a chain of [__wrapped__] attributes may run into itself. *)
Definition addr := nat.

(** An object whose attribute lookups are plain: each attribute
    [_callback_attributes] probes is there or is not ([None]), and looking
    it up does nothing else.  [repr] is what [repr(obj)] does.  (Objects
    whose lookups may raise are [AnyObject] below.) *)
Record PyObject := mkObject {
  __self__ : option Receiver;
  __wrapped__ : option addr;
  __code__ : option CodeType;
  __qualname__ : option string;
  __name__ : option string;
  repr : outcome string
}.

Definition Heap := addr -> PyObject.

(** Modelled from the spec: the [StackInfo] typed dictionary of
    [logfire._stack_info], a source location [{function, file, line}]
    every key of which may be missing. *)
Record StackInfo := mkStackInfo {
  code_filepath : option string;
  code_lineno : option Z;
  code_function : option string
}.

(** [class _CallbackAttributes(StackInfo, total=False): name: str] *)
Record _CallbackAttributes := mkAttrs {
  name : string;
  stack_info : StackInfo
}.

Definition no_stack_info : StackInfo := mkStackInfo None None None.

(** [{**a, **b}] on one key: the entry of [b] wins when it is there. *)
Definition merge_key {A} (a b : option A) : option A :=
  match b with Some _ => b | None => a end.

Definition merge_stack_info (a b : StackInfo) : StackInfo :=
  {| code_filepath := merge_key (code_filepath a) (code_filepath b);
     code_lineno := merge_key (code_lineno a) (code_lineno b);
     code_function := merge_key (code_function a) (code_function b) |}.

(** [{**result, **info}] for a [result] with a name and an [info] that,
    being a [StackInfo], has none. *)
Definition merge_result (result : _CallbackAttributes) (info : StackInfo)
  : _CallbackAttributes :=
  {| name := name result;
     stack_info := merge_stack_info (stack_info result) info |}.

(** [a or b] on strings: the empty string is falsy. *)
Definition str_or (a b : string) : string :=
  if decide (a = "") then b else a.

(** The placeholder [safe_repr] falls back on. *)
Definition repr_placeholder : string := "<unknown (repr failed)>".

(** Modelled from the spec: [logfire._utils.safe_repr], which is not among
    the sources at hand, "a safe fallback string representation that must
    never itself raise (any exception during repr-like formatting must be
    caught and replaced with a placeholder)". *)
Definition safe_repr (obj : PyObject) : string :=
  match repr obj with
  | Return s => s
  | Raise _ => repr_placeholder
  end.

(** ** [inspect.unwrap] *)

(** [raise ValueError('wrapper loop when unwrapping {!r}'.format(f))]:
    the message is formatted before the [ValueError] is made, and
    formatting calls [repr(f)]; when that raises, its exception comes out
    in place of the [ValueError]. *)
Definition wrapper_loop_error (f : PyObject) : PyExc :=
  match repr f with
  | Return _ => ValueError
  | Raise e => e
  end.

(** The loop of the standard library's [inspect.unwrap]: follow
    [__wrapped__] for as long as the attribute is there; [f] is the
    object the unwrapping started from, [memo] holds the objects seen so
    far and [remaining] is [sys.getrecursionlimit() - len(memo)].  A step
    to an object already seen, or a step taken when
    [len(memo) >= recursion_limit], raises the wrapper-loop error. *)
Fixpoint unwrap_loop (h : Heap) (f : addr) (remaining : nat)
    (memo : list addr) (func : addr) : outcome addr :=
  match __wrapped__ (h func) with
  | None => Return func
  | Some func' =>
      match remaining with
      | O => Raise (wrapper_loop_error (h f))
      | S remaining' =>
          if decide (func' ∈ memo) then Raise (wrapper_loop_error (h f))
          else unwrap_loop h f remaining' (func' :: memo) func'
      end
  end.

Definition unwrap (recursion_limit : nat) (h : Heap) (func : addr)
  : outcome addr :=
  unwrap_loop h func (recursion_limit - 1) [func] func.

(** [wrapped_chain h f l u]: following [__wrapped__] from [f] passes
    through the objects [l] and ends in [u], which has no such attribute. *)
Inductive wrapped_chain (h : Heap) : addr -> list addr -> addr -> Prop :=
| chain_end f :
    __wrapped__ (h f) = None -> wrapped_chain h f [] f
| chain_step f f' l u :
    __wrapped__ (h f) = Some f' -> wrapped_chain h f' l u ->
    wrapped_chain h f (f' :: l) u.

(** ** [_callback_attributes] *)

Section Resolver.

(** The two helpers of [logfire._stack_info] are not part of the
    sources at hand; the resolver is studied for any pair of them. *)
Variable get_stack_info_from_frame : FrameType -> StackInfo.
Variable get_code_object_info : CodeType -> StackInfo.
Variable recursion_limit : nat.

(** [if function_name := result.get('code.function'):
       result['name'] += f' ({function_name})'] *)
Definition append_function_name (result : _CallbackAttributes)
  : _CallbackAttributes :=
  match code_function (stack_info result) with
  | Some function_name =>
      if decide (function_name = "") then result
      else {| name := name result ++ " (" ++ function_name ++ ")";
              stack_info := stack_info result |}
  | None => result
  end.

(** The first branch: [callback] is a bound method of [task]. *)
Definition task_attributes (task : Task) : _CallbackAttributes :=
  let coro := get_coro task in
  let result := mkAttrs ("task " ++ get_name task) no_stack_info in
  match coro with
  | NotCoroutineType => result
  | IsCoroutineType coro =>
      let result :=
        match cr_frame coro with
        | Some frame =>
            merge_result result (get_stack_info_from_frame frame)
        | None =>
            merge_result result (get_code_object_info (cr_code coro))
        end in
      append_function_name result
  end.

(** The second branch, after [inspect.unwrap]. *)
Definition callable_attributes (callback : PyObject)
  : _CallbackAttributes :=
  let result :=
    match __code__ callback with
    | Some code => merge_stack_info no_stack_info (get_code_object_info code)
    | None => no_stack_info
    end in
  let name :=
    str_or (default "" (__qualname__ callback))
      (str_or (default "" (__name__ callback))
         (default "" (code_function result))) in
  let name := str_or name (safe_repr callback) in
  {| name := "callback " ++ name; stack_info := result |}.

Definition _callback_attributes (h : Heap) (callback : addr)
  : outcome _CallbackAttributes :=
  match __self__ (h callback) with
  | Some (IsTask task) => Return (task_attributes task)
  | _ =>
      match unwrap recursion_limit h callback with
      | Return callback => Return (callable_attributes (h callback))
      | Raise e => Raise e
      end
  end.

(** The second branch as the design document words it, "unwrap one
    layer of wrapping", to compare [_callback_attributes] with. *)
Definition unwrap_one_layer (h : Heap) (callback : addr) : addr :=
  default callback (__wrapped__ (h callback)).

Definition one_layer_callback_attributes (h : Heap) (callback : addr)
  : outcome _CallbackAttributes :=
  match __self__ (h callback) with
  | Some (IsTask task) => Return (task_attributes task)
  | _ => Return (callable_attributes (h (unwrap_one_layer h callback)))
  end.

End Resolver.

(** The first candidate that is not the empty string, else [fallback]:
    the "priority order" of the display name. *)
Fixpoint first_nonempty (candidates : list (option string))
    (fallback : string) : string :=
  match candidates with
  | [] => fallback
  | Some s :: candidates =>
      if decide (s = "") then first_nonempty candidates fallback else s
  | None :: candidates => first_nonempty candidates fallback
  end.

(** ** Attribute lookups that raise *)

(** [getattr(obj, name, default)] and [hasattr(obj, name)] absorb
    [AttributeError] and nothing else: on an arbitrary object (a property,
    a [__getattr__] hook) the lookup may raise anything.  What looking an
    attribute up does: it finds a value, or raises [AttributeError]
    ([missing]), or raises another exception ([fails]). *)
Inductive Lookup (A : Type) : Type :=
| found (a : A)
| missing
| fails (e : PyExc).
Arguments found {A} a.
Arguments missing {A}.
Arguments fails {A} e.

(** [getattr(obj, name, default)] *)
Definition getattr {A} (l : Lookup A) (default : A) : outcome A :=
  match l with
  | found a => Return a
  | missing => Return default
  | fails e => Raise e
  end.

(** [getattr(obj, name, None)] *)
Definition getattr_None {A} (l : Lookup A) : outcome (option A) :=
  match l with
  | found a => Return (Some a)
  | missing => Return None
  | fails e => Raise e
  end.

(** Any object at all, with the lookups [_callback_attributes] and
    [inspect.unwrap] make on it. *)
Record AnyObject := mkAnyObject {
  lookup__self__ : Lookup Receiver;
  lookup__wrapped__ : Lookup addr;
  lookup__code__ : Lookup CodeType;
  lookup__qualname__ : Lookup string;
  lookup__name__ : Lookup string;
  lookup_repr : outcome string
}.

Definition AnyHeap := addr -> AnyObject.

(** A [PyObject] among all objects, and an object as [getattr] with a
    default sees it when no lookup fails. *)
Definition plain_lookup {A} (o : option A) : Lookup A :=
  match o with Some a => found a | None => missing end.

Definition as_any (obj : PyObject) : AnyObject :=
  {| lookup__self__ := plain_lookup (__self__ obj);
     lookup__wrapped__ := plain_lookup (__wrapped__ obj);
     lookup__code__ := plain_lookup (__code__ obj);
     lookup__qualname__ := plain_lookup (__qualname__ obj);
     lookup__name__ := plain_lookup (__name__ obj);
     lookup_repr := repr obj |}.

Definition found_value {A} (l : Lookup A) : option A :=
  match l with found a => Some a | _ => None end.

Definition as_plain (obj : AnyObject) : PyObject :=
  {| __self__ := found_value (lookup__self__ obj);
     __wrapped__ := found_value (lookup__wrapped__ obj);
     __code__ := found_value (lookup__code__ obj);
     __qualname__ := found_value (lookup__qualname__ obj);
     __name__ := found_value (lookup__name__ obj);
     repr := lookup_repr obj |}.

(** Modelled from the spec: [logfire._utils.safe_repr] on any object, as
    [safe_repr] above. *)
Definition safe_repr_any (obj : AnyObject) : string :=
  match lookup_repr obj with
  | Return s => s
  | Raise _ => repr_placeholder
  end.

Definition wrapper_loop_error_any (f : AnyObject) : PyExc :=
  match lookup_repr f with
  | Return _ => ValueError
  | Raise e => e
  end.

(** [inspect.unwrap] on any object: [hasattr(func, '__wrapped__')]
    raises what the lookup raises, unless that is [AttributeError]. *)
Fixpoint unwrap_loop_any (h : AnyHeap) (f : addr) (remaining : nat)
    (memo : list addr) (func : addr) : outcome addr :=
  match lookup__wrapped__ (h func) with
  | fails e => Raise e
  | missing => Return func
  | found func' =>
      match remaining with
      | O => Raise (wrapper_loop_error_any (h f))
      | S remaining' =>
          if decide (func' ∈ memo) then Raise (wrapper_loop_error_any (h f))
          else unwrap_loop_any h f remaining' (func' :: memo) func'
      end
  end.

Definition unwrap_any (recursion_limit : nat) (h : AnyHeap) (func : addr)
  : outcome addr :=
  unwrap_loop_any h func (recursion_limit - 1) [func] func.

(** [wrapped_chain_any h f l u]: following [__wrapped__] from [f] passes
    through the objects [l] and stops at [u], where the lookup finds
    nothing: the attribute is missing or the lookup fails. *)
Inductive wrapped_chain_any (h : AnyHeap) : addr -> list addr -> addr -> Prop :=
| any_chain_end f :
    found_value (lookup__wrapped__ (h f)) = None ->
    wrapped_chain_any h f [] f
| any_chain_step f f' l u :
    lookup__wrapped__ (h f) = found f' -> wrapped_chain_any h f' l u ->
    wrapped_chain_any h f (f' :: l) u.

(** [a or b] on two string expressions, the second of which is
    evaluated only when the first is falsy. *)
Definition str_or_else (a b : outcome string) : outcome string :=
  match a with
  | Return s => if decide (s = "") then b else Return s
  | Raise e => Raise e
  end.

Section AnyResolver.

Variable get_stack_info_from_frame : FrameType -> StackInfo.
Variable get_code_object_info : CodeType -> StackInfo.
Variable recursion_limit : nat.

(** The second branch of [_callback_attributes] on any object. *)
Definition callable_attributes_any (callback : AnyObject)
  : outcome _CallbackAttributes :=
  match getattr_None (lookup__code__ callback) with
  | Raise e => Raise e
  | Return code =>
      let result :=
        match code with
        | Some code =>
            merge_stack_info no_stack_info (get_code_object_info code)
        | None => no_stack_info
        end in
      match
        str_or_else (getattr (lookup__qualname__ callback) "")
          (str_or_else (getattr (lookup__name__ callback) "")
             (Return (default "" (code_function result))))
      with
      | Raise e => Raise e
      | Return name =>
          let name := str_or name (safe_repr_any callback) in
          Return {| name := "callback " ++ name; stack_info := result |}
      end
  end.

(** [_callback_attributes] on any object. *)
Definition _callback_attributes_any (h : AnyHeap) (callback : addr)
  : outcome _CallbackAttributes :=
  match getattr_None (lookup__self__ (h callback)) with
  | Raise e => Raise e
  | Return (Some (IsTask task)) =>
      Return (task_attributes get_stack_info_from_frame get_code_object_info
                task)
  | Return _ =>
      match unwrap_any recursion_limit h callback with
      | Return callback => callable_attributes_any (h callback)
      | Raise e => Raise e
      end
  end.

End AnyResolver.

(** ** The monitor: [log_slow_callbacks] *)

(** The pending callback handle given to [Handle._run]. *)
Record Handle := mkHandle { _callback : addr }.

(** One call of [logfire.warn(template, duration=..., **attributes)], as
    the sink receives it, with the tags of the instance it was made on. *)
Record Report := mkReport {
  level : Level;
  msg_template : string;
  report_tags : list string;
  duration : float;
  attributes : _CallbackAttributes
}.

Section Monitor.

(** Whatever the event loop and the callbacks keep as state; the
    injected nanosecond timer reads (and may advance) it. *)
Context {Host : Type}.
(** What [Handle._run] returns. *)
Context {Value : Type}.

(** A [Logfire] instance: its tags, the [ns_timestamp_generator] of
    its configuration, and what the backend does with a report
    ([None]: accepts it; [Some e]: the call raises [e]). *)
Record Logfire := mkLogfire {
  tags : list string;
  ns_timestamp_generator : Host -> Z * Host;
  sink_raises : Report -> option PyExc
}.

Definition with_tags (logfire : Logfire) (tag : string) : Logfire :=
  {| tags := tags logfire ++ [tag];
     ns_timestamp_generator := ns_timestamp_generator logfire;
     sink_raises := sink_raises logfire |}.

(** The function behind [asyncio.events.Handle._run]: asyncio's own,
    or the closure [patched_run] with the variables it captured. *)
Inductive run_fn :=
| asyncio_run
| patched_run_closure (original_run : run_fn) (logfire : Logfire)
    (timer : Host -> Z * Host) (slow_duration : float).

Record World := mkWorld {
  Handle_run : run_fn;          (* asyncio.events.Handle._run *)
  objects : Heap;               (* the objects callbacks are made of *)
  host : Host;
  sink_calls : list Report      (* the reports handed to sinks, in order *)
}.

Definition set_Handle_run (f : run_fn) (w : World) : World :=
  {| Handle_run := f; objects := objects w; host := host w;
     sink_calls := sink_calls w |}.

(** asyncio's [Handle._run] itself: any computation at all. *)
Variable asyncio_Handle_run : Handle -> M World Value.

Variable get_stack_info_from_frame : FrameType -> StackInfo.
Variable get_code_object_info : CodeType -> StackInfo.
Variable recursion_limit : nat.

Definition call_timer (timer : Host -> Z * Host) : M World Z :=
  fun w =>
    let (t, h) := timer (host w) in
    (Return t,
     {| Handle_run := Handle_run w; objects := objects w; host := h;
        sink_calls := sink_calls w |}).

(** The sink is handed a report; then the backend may raise. *)
Definition add_report (report : Report) (w : World) : World :=
  {| Handle_run := Handle_run w; objects := objects w; host := host w;
     sink_calls := sink_calls w ++ [report] |}.

(** [logfire.warn(template, duration=duration, **attributes)] *)
Definition logfire_warn (logfire : Logfire) (template : string)
    (duration : float) (attributes : _CallbackAttributes) : M World unit :=
  fun w =>
    let report := mkReport warn template (tags logfire) duration attributes in
    match sink_raises logfire report with
    | Some e => (Raise e, add_report report w)
    | None => (Return tt, add_report report w)
    end.

Definition callback_attributes_now (callback : addr)
  : M World _CallbackAttributes :=
  fun w =>
    (_callback_attributes get_stack_info_from_frame get_code_object_info
       recursion_limit (objects w) callback, w).

(** The report of a callback that blocked for [seconds]. *)
Definition slow_report (logfire : Logfire) (seconds : float)
    (attributes : _CallbackAttributes) : Report :=
  {| level := warn;
     msg_template := "Async {name} blocked for {duration:.3f} seconds";
     report_tags := tags logfire;
     duration := seconds;
     attributes := attributes |}.

(** The body of the [try] in [patched_run]. *)
Definition report_slow_callback (logfire : Logfire) (self : Handle)
    (duration : Z) : M World unit :=
  let* duration := lift (int_truediv duration ONE_SECOND_IN_NANOSECONDS) in
  let callback := _callback self in
  let* attributes := callback_attributes_now callback in
  logfire_warn logfire "Async {name} blocked for {duration:.3f} seconds"
    duration attributes.

Definition patched_run (original_run : Handle -> M World Value)
    (logfire : Logfire) (timer : Host -> Z * Host) (slow_duration : float)
    (self : Handle) : M World Value :=
  let* start_time := call_timer timer in
  let* return_value := original_run self in
  let* now := call_timer timer in
  let duration := (now - start_time)%Z in
  (if int_ge_float duration slow_duration then
     try_except_Exception
       (report_slow_callback logfire self duration)
       (ret tt)
   else ret tt) ;;;
  ret return_value.

(** Calling a [run_fn]. *)
Fixpoint call_run (f : run_fn) (self : Handle) : M World Value :=
  match f with
  | asyncio_run => asyncio_Handle_run self
  | patched_run_closure original_run logfire timer slow_duration =>
      patched_run (call_run original_run) logfire timer slow_duration self
  end.

(** What the event loop does with a handle: [handle._run()]. *)
Definition run_handle (self : Handle) : M World Value :=
  fun w => call_run (Handle_run w) self w.

(** The handle returned by [log_slow_callbacks]: a context manager
    made from the generator [patch_context], which remembers
    [original_run]. *)
Record ContextManager := mkContext { original_run_of : run_fn }.

(** [with patch_context(): body] -- [try: yield finally: restore]. *)
Definition patch_context {A} (cm : ContextManager) (body : M World A)
  : M World A :=
  try_finally body (set_Handle_run (original_run_of cm)).

Definition log_slow_callbacks (logfire : Logfire) (slow_duration : float)
  : M World ContextManager :=
  fun w =>
    let original_run := Handle_run w in
    let logfire := with_tags logfire "slow-async" in
    let timer := ns_timestamp_generator logfire in
    let slow_duration :=
      float_mul slow_duration (float_of_int ONE_SECOND_IN_NANOSECONDS) in
    (Return (mkContext original_run),
     set_Handle_run
       (patched_run_closure original_run logfire timer slow_duration) w).

End Monitor.

Arguments Logfire : clear implicits.
Arguments run_fn : clear implicits.
Arguments World : clear implicits.
Arguments ContextManager : clear implicits.

End Async.

(* ================================================================== *)
(** * src/logfire/integrations/_fastapi.py                             *)
(* ================================================================== *)

Module FastAPI.

(** ** Values, requests, routes *)

(** The classes [patched_solve_dependencies] tests with [isinstance]. *)
Inductive PyClass :=
| cls_Request | cls_WebSocket | cls_BackgroundTasks | cls_SecurityScopes
| cls_Response | cls_other (class_name : string).

Inductive pyval :=
| VNone
| VBool (b : bool)
| VInt (z : Z)
| VStr (s : string)
| VList (l : list pyval)
| VDict (d : gmap string pyval)
| VObject (cls : PyClass) (id : nat).

(** Python's truth value. *)
Definition truthy (v : pyval) : bool :=
  match v with
  | VNone => false
  | VBool b => b
  | VInt z => negb (z =? 0)%Z
  | VStr s => negb (bool_decide (s = ""))
  | VList l => negb (bool_decide (length l = 0))
  | VDict d => negb (bool_decide (size d = 0))
  | VObject _ _ => true
  end.

(** [isinstance(v, (Request, WebSocket, BackgroundTasks, SecurityScopes,
    Response))] *)
Definition is_framework_object (v : pyval) : bool :=
  match v with
  | VObject (cls_other _) _ => false
  | VObject _ _ => true
  | _ => false
  end.

Definition App := nat.

(** [APIRoute] has an [operation_id], [APIWebSocketRoute] has none. *)
Inductive RouteClass :=
| APIRoute (operation_id : option string)
| APIWebSocketRoute.

Record Route := mkRoute {
  path : string;
  route_name : string;               (* route.name *)
  route_class : RouteClass
}.

(** [Request | WebSocket]: only a [Request] has a [method]. *)
Inductive ConnectionClass :=
| IsRequest (method : string)
| IsWebSocket.

Record Request := mkRequest {
  connection : ConnectionClass;
  app : App;                         (* request.app *)
  url : string;                      (* get_host_port_url_tuple(request.scope)[2] *)
  scope_route : option Route         (* request.scope.get('route') *)
}.

Definition is_Request (request : Request) : bool :=
  match connection request with IsRequest _ => true | IsWebSocket => false end.

(** The resolved values: a plain [dict], or an [_InstrumentedValues]
    ([class _InstrumentedValues(dict): request: Request]), which is a
    [dict] with the same items and a [request] attribute. *)
Record Values := mkValues {
  items : gmap string pyval;
  request : option Request           (* None: a plain dict *)
}.

(** [_InstrumentedValues(values)] followed by [.request = request] *)
Definition _InstrumentedValues (values : Values) (request : Request) : Values :=
  {| items := items values; request := Some request |}.

(** The tuple [solve_dependencies] returns: [result[0]], [result[1]]
    and [result[2:]]. *)
Record SolveResult := mkResult {
  values : Values;
  errors : list pyval;
  rest : list pyval
}.

(** ** The sink *)

(** What reaches the telemetry side, in order. *)
Inductive Event :=
| Log (tags : list string) (level : Level) (template : string)
    (attributes : gmap string pyval)
| LogException (tags : list string) (template : string)
| SpanOpen (tags : list string) (template : string) (method route : string)
| SpanClose (tags : list string) (template : string) (raised : option PyExc)
| InstrumentApp (app : App) (excluded_urls : option string)
| UninstrumentApp (app : App).

(** A [Logfire] instance: its tags, and which of its [log] and
    [exception] calls raise. *)
Record Logfire := mkLogfire {
  tags : list string;
  sink_raises : Event -> option PyExc
}.

Definition with_tags (logfire : Logfire) (tag : string) : Logfire :=
  {| tags := tags logfire ++ [tag]; sink_raises := sink_raises logfire |}.

(** [request_attributes_mapper]: given the request and the attributes
    to log it returns the attributes to log, or [None], or raises.  The
    values it is handed are values, not objects: what a mapper does to a
    resolved object by mutating it in place is not described. *)
Definition Mapper : Type :=
  Request -> gmap string pyval -> outcome (option (gmap string pyval)).

Definition _default_request_attributes_mapper : Mapper :=
  fun _request attributes => Return (Some attributes).

(** [not attributes] for what a mapper returned. *)
Definition falsy (attributes : option (gmap string pyval)) : bool :=
  match attributes with
  | None => true
  | Some d => negb (truthy (VDict d))
  end.

(** ** The closures of one call of [instrument_fastapi] *)

(** The variables of [instrument_fastapi] its inner functions close
    over.  [instrumenting] is a variable they share and
    [uninstrument_context] assigns to: it is a cell of the store. *)
Record Activation := mkActivation {
  logfire_instance : Logfire;
  the_app : App;
  request_attributes_mapper : Mapper;
  url_disabled : string -> bool;     (* excluded_urls_list.url_disabled *)
  instrumenting : nat
}.

Inductive solve_fn :=
| fastapi_solve_dependencies
| patched_solve_closure (closure : Activation)
    (original_solve_dependencies : solve_fn).

Inductive endpoint_fn :=
| fastapi_run_endpoint_function
| patched_endpoint_closure (closure : Activation)
    (original_run_endpoint_function : endpoint_fn).

(** [fastapi.routing], the [instrumenting] cells of the activations so
    far, and the events that reached the telemetry side. *)
Record World := mkWorld {
  solve_dependencies : solve_fn;
  run_endpoint_function : endpoint_fn;
  cells : list bool;
  events : list Event
}.

Definition emit (e : Event) (w : World) : World :=
  {| solve_dependencies := solve_dependencies w;
     run_endpoint_function := run_endpoint_function w;
     cells := cells w;
     events := events w ++ [e] |}.

(** Reading the closure variable [instrumenting]. *)
Definition read_cell (w : World) (cell : nat) : bool :=
  default false (cells w !! cell).

Definition write_cell (cell : nat) (b : bool) (w : World) : World :=
  {| solve_dependencies := solve_dependencies w;
     run_endpoint_function := run_endpoint_function w;
     cells := <[cell := b]> (cells w);
     events := events w |}.

(** A call on a sink: the call is made, then the backend may raise. *)
Definition sink_call (logfire : Logfire) (e : Event) : M World unit :=
  fun w =>
    match sink_raises logfire e with
    | Some exc => (Raise exc, emit e w)
    | None => (Return tt, emit e w)
    end.

(** [logfire_instance.log(level, template, attributes=attributes)] *)
Definition logfire_log (logfire : Logfire) (level : Level)
    (template : string) (attributes : gmap string pyval) : M World unit :=
  sink_call logfire (Log (tags logfire) level template attributes).

(** [logfire_instance.exception(template)] *)
Definition logfire_exception (logfire : Logfire) (template : string)
  : M World unit :=
  sink_call logfire (LogException (tags logfire) template).

(** What [with] is given: the scoped context of
    [logfire.span(template, method=..., route=...)], or the standard
    library's [nullcontext()]. *)
Inductive Context :=
| span (tags : list string) (template : string) (method route : string)
| nullcontext.

(** Modelled from the spec: entering and leaving the context that
    [logfire.span] returns ([logfire._main] is not among the sources at
    hand).  "The span must close (success or exception) before this stage
    returns; invocation exceptions propagate unchanged through the span
    closure -- the span observes, never suppresses." *)
Definition with_context {A} (context : Context) (body : M World A)
  : M World A :=
  match context with
  | nullcontext => body
  | span tags template method route =>
      fun w =>
        match body (emit (SpanOpen tags template method route) w) with
        | (Return a, w') =>
            (Return a, emit (SpanClose tags template None) w')
        | (Raise e, w') =>
            (Raise e, emit (SpanClose tags template (Some e)) w')
        end
  end.

(** The locals of [patched_solve_dependencies]: [result] is assigned
    inside the [try] and read after it. *)
Record Frame := mkFrame {
  world : World;
  result : SolveResult
}.

Definition in_world {A} (c : M World A) : M Frame A :=
  fun f =>
    let (r, w) := c (world f) in
    (r, {| world := w; result := result f |}).

Definition get_result : M Frame SolveResult :=
  fun f => (Return (result f), f).

Definition set_result (r : SolveResult) : M Frame unit :=
  fun f => (Return tt, {| world := world f; result := r |}).

Definition run_frame {A} (result : SolveResult) (c : M Frame A) : M World A :=
  fun w =>
    let (r, f) := c {| world := w; result := result |} in
    (r, world f).

(** [request.method]; a [WebSocket] has no such attribute. *)
Definition method_of (request : Request) : outcome string :=
  match connection request with
  | IsRequest method => Return method
  | IsWebSocket => Raise AttributeError
  end.

Definition opt_str (s : option string) : pyval :=
  match s with Some s => VStr s | None => VNone end.

Section Patches.

(** The rest of the keyword arguments, and the dependant. *)
Context {Kwargs : Type}.
Context {Dependant : Type}.

(** FastAPI's own [solve_dependencies] and [run_endpoint_function]. *)
Variable fastapi_solve : Request -> Kwargs -> M World SolveResult.
Variable fastapi_run_endpoint :
  Dependant -> Values -> Kwargs -> M World pyval.

(** The module-level [logfire] instance, on which
    [patched_run_endpoint_function] opens its span. *)
Variable default_logfire : Logfire.

Definition instrumenting_request (closure : Activation)
    (request : Request) : M World bool :=
  fun w =>
    let url := url request in
    (Return (read_cell w (instrumenting closure)
             && bool_decide (app request = the_app closure)
             && negb (url_disabled closure url)), w).

(** The attributes added after the mapper has run. *)
Definition add_request_attributes (request : Request)
    (attributes : gmap string pyval) : gmap string pyval :=
  let attributes :=
    match connection request with
    | IsRequest method => <["http.method" := VStr method]> attributes
    | IsWebSocket => attributes
    end in
  match scope_route request with
  | Some route =>
      let attributes :=
        <["fastapi.route.name" := VStr (route_name route)]>
          (<["http.route" := VStr (path route)]> attributes) in
      match route_class route with
      | APIRoute operation_id =>
          <["fastapi.route.operation_id" := opt_str operation_id]> attributes
      | APIWebSocketRoute => attributes
      end
  | None => attributes
  end.

(** [{'values': {k: v for k, v in result[0].items() if not
    isinstance(v, (...))}, 'errors': result[1].copy()}] *)
Definition initial_attributes (result : SolveResult) : gmap string pyval :=
  <["errors" := VList (errors result)]>
    (<["values" :=
         VDict (filter (fun kv => is_framework_object kv.2 = false)
                  (items (values result)))]> ∅).

(** [instrumented_values = _InstrumentedValues(result[0]);
     instrumented_values.request = request;
     result = (instrumented_values, *result[1:])] *)
Definition instrumented_result (request : Request) (result : SolveResult)
  : SolveResult :=
  {| values := _InstrumentedValues (values result) request;
     errors := errors result;
     rest := rest result |}.

(** ['error' if attributes.get('errors') else 'debug'] *)
Definition report_level (attributes : gmap string pyval) : Level :=
  if truthy (default VNone (attributes !! "errors")) then error else debug.

(** What the framework gets back for a request that passed
    [instrumenting_request]. *)
Definition returned_result (request : Request) (result : SolveResult)
  : SolveResult :=
  if is_Request request then instrumented_result request result
  else result.

(** The two events of the stage. *)
Definition arguments_event (closure : Activation) (request : Request)
    (attributes : gmap string pyval) : Event :=
  Log (tags (logfire_instance closure)) (report_level attributes)
    "FastAPI arguments" (add_request_attributes request attributes).

Definition error_event (closure : Activation) : Event :=
  LogException (tags (logfire_instance closure))
    "Error logging FastAPI arguments".

(** The [except] clause followed by [return result], from world [w]. *)
Definition except_clause (closure : Activation) (result : SolveResult)
    (w : World) : outcome SolveResult * World :=
  match sink_raises (logfire_instance closure) (error_event closure) with
  | Some e => (Raise e, emit (error_event closure) w)
  | None => (Return result, emit (error_event closure) w)
  end.

(** The body of the [try]; [Some r] is a [return r] inside it, [None]
    is falling off its end. *)
Definition solve_try_body (closure : Activation) (request : Request)
  : M Frame (option SolveResult) :=
  let* ok := in_world (instrumenting_request closure request) in
  if negb ok then
    let* result := get_result in ret (Some result)
  else
    let* result := get_result in
    let attributes := initial_attributes result in
    (if is_Request request then
       set_result (instrumented_result request result)
     else ret tt) ;;;
    let* attributes := lift (request_attributes_mapper closure request attributes) in
    match attributes with
    | Some attributes =>
        if truthy (VDict attributes) then
          let level := report_level attributes in
          let attributes := add_request_attributes request attributes in
          in_world (logfire_log (logfire_instance closure) level
                      "FastAPI arguments" attributes) ;;;
          ret None
        else
          let* result := get_result in ret (Some result)
    | None =>
        let* result := get_result in ret (Some result)
    end.

Definition patched_solve_dependencies (closure : Activation)
    (original_solve_dependencies : Request -> Kwargs -> M World SolveResult)
    (request : Request) (kwargs : Kwargs) : M World SolveResult :=
  let* result := original_solve_dependencies request kwargs in
  run_frame result
    (let* returned :=
       try_except_Exception
         (solve_try_body closure request)
         (in_world (logfire_exception (logfire_instance closure)
                      "Error logging FastAPI arguments") ;;;
          ret None) in
     match returned with
     | Some result => ret result
     | None => get_result
     end).

Definition patched_run_endpoint_function (closure : Activation)
    (original_run_endpoint_function :
       Dependant -> Values -> Kwargs -> M World pyval)
    (dependant : Dependant) (values : Values) (kwargs : Kwargs)
  : M World pyval :=
  let* context :=
    lift
      match request values with
      | Some request =>
          if bool_decide (app request = the_app closure) then
            match method_of request with
            | Return method =>
                match scope_route request with
                | Some route =>
                    Return (span (tags default_logfire)
                              "{method} {route} endpoint function"
                              method (path route))
                | None => Raise KeyError
                end
            | Raise e => Raise e
            end
          else Return nullcontext
      | None => Return nullcontext
      end in
  with_context context
    (original_run_endpoint_function dependant values kwargs).

Fixpoint call_solve (f : solve_fn) : Request -> Kwargs -> M World SolveResult :=
  match f with
  | fastapi_solve_dependencies => fastapi_solve
  | patched_solve_closure closure original =>
      patched_solve_dependencies closure (call_solve original)
  end.

Fixpoint call_endpoint (f : endpoint_fn)
  : Dependant -> Values -> Kwargs -> M World pyval :=
  match f with
  | fastapi_run_endpoint_function => fastapi_run_endpoint
  | patched_endpoint_closure closure original =>
      patched_run_endpoint_function closure (call_endpoint original)
  end.

(** How many patches are stacked on the two functions. *)
Fixpoint solve_layers (f : solve_fn) : nat :=
  match f with
  | fastapi_solve_dependencies => 0
  | patched_solve_closure _ original => S (solve_layers original)
  end.

Fixpoint endpoint_layers (f : endpoint_fn) : nat :=
  match f with
  | fastapi_run_endpoint_function => 0
  | patched_endpoint_closure _ original => S (endpoint_layers original)
  end.

(** The activations whose patches are stacked, outermost first. *)
Fixpoint solve_closures (f : solve_fn) : list Activation :=
  match f with
  | fastapi_solve_dependencies => []
  | patched_solve_closure closure original =>
      closure :: solve_closures original
  end.

(** What [fastapi.routing] does for a request: it calls whatever the
    two module attributes hold at that moment. *)
Definition routing_solve_dependencies (request : Request) (kwargs : Kwargs)
  : M World SolveResult :=
  fun w => call_solve (solve_dependencies w) request kwargs w.

Definition routing_run_endpoint_function (dependant : Dependant)
    (values : Values) (kwargs : Kwargs) : M World pyval :=
  fun w => call_endpoint (run_endpoint_function w) dependant values kwargs w.

(** ** [instrument_fastapi] *)

(** [excluded_urls: str | Iterable[str] | None] *)
Inductive ExcludedUrls :=
| urls_str (s : string)
| urls_iterable (l : list string).

(** The two parsers of [opentelemetry.util.http], returning what
    [url_disabled] answers. *)
Variable get_excluded_urls : string -> string -> bool.
Variable parse_excluded_urls : string -> string -> bool.

Record ContextManager := mkContext { closure_of : Activation }.

(** [with uninstrument_context(): body] *)
Definition uninstrument_context {A} (cm : ContextManager)
    (body : M World A) : M World A :=
  try_finally body
    (fun w =>
       emit (UninstrumentApp (the_app (closure_of cm)))
         (write_cell (instrumenting (closure_of cm)) false w)).

Definition instrument_fastapi (logfire_instance : Logfire) (app : App)
    (request_attributes_mapper : option Mapper)
    (use_opentelemetry_instrumentation : bool)
    (excluded_urls : option ExcludedUrls) : M World ContextManager :=
  fun w =>
    let logfire_instance := with_tags logfire_instance "fastapi" in
    let request_attributes_mapper :=
      default _default_request_attributes_mapper request_attributes_mapper in
    let excluded_urls :=
      match excluded_urls with
      | Some (urls_iterable l) => Some (String.concat "," l)
      | Some (urls_str s) => Some s
      | None => None
      end in
    let w :=
      if use_opentelemetry_instrumentation
      then emit (InstrumentApp app excluded_urls) w else w in
    let excluded_urls_list :=
      match excluded_urls with
      | None => get_excluded_urls "FASTAPI"
      | Some s => parse_excluded_urls s
      end in
    let closure :=
      {| logfire_instance := logfire_instance;
         the_app := app;
         request_attributes_mapper := request_attributes_mapper;
         url_disabled := excluded_urls_list;
         instrumenting := length (cells w) |} in
    (Return (mkContext closure),
     {| solve_dependencies :=
          patched_solve_closure closure (solve_dependencies w);
        run_endpoint_function :=
          patched_endpoint_closure closure (run_endpoint_function w);
        cells := cells w ++ [true];
        events := events w |}).

End Patches.

End FastAPI.

(* ================================================================== *)
(** * Sample objects, hosts and sinks                                  *)
(* ================================================================== *)

(** Concrete inputs on which the two interceptors are run below. *)
Module Samples.
Import Async.

(** A pair of stack-info helpers: the function and file of a code
    object with the line it starts at; for a frame, the line it is
    suspended at. *)
Definition code_info (code : CodeType) : StackInfo :=
  {| code_filepath := Some (co_filename code);
     code_lineno := Some (co_firstlineno code);
     code_function := Some (co_qualname code) |}.

Definition frame_info (frame : FrameType) : StackInfo :=
  {| code_filepath := Some (co_filename (f_code frame));
     code_lineno := Some (f_lineno frame);
     code_function := Some (co_qualname (f_code frame)) |}.

Definition plain_object (qualname : option string) (wrapped : option addr)
  : PyObject :=
  {| __self__ := None; __wrapped__ := wrapped; __code__ := None;
     __qualname__ := qualname; __name__ := None;
     repr := Return "<object>" |}.

(** [outer] wraps [middle] wraps [inner]: two decorators applied with
    [functools.wraps], each keeping a name of its own. *)
Definition twice_wrapped : Heap :=
  fun a =>
    match a with
    | 0 => plain_object (Some "outer") (Some 1)
    | 1 => plain_object (Some "middle") (Some 2)
    | _ => plain_object (Some "inner") None
    end.

(** [f.__wrapped__ = f] *)
Definition wrapper_loop : Heap :=
  fun _ => plain_object (Some "f") (Some 0).

(** [f.__wrapped__ = f] on an object whose [__repr__] raises. *)
Definition wrapper_loop_without_repr : Heap :=
  fun _ =>
    {| __self__ := None; __wrapped__ := Some 0; __code__ := None;
       __qualname__ := Some "f"; __name__ := None;
       repr := Raise RuntimeError |}.

(** An object whose [__qualname__] is a property that raises. *)
Definition raising_qualname : AnyHeap :=
  fun _ =>
    {| lookup__self__ := missing; lookup__wrapped__ := missing;
       lookup__code__ := missing;
       lookup__qualname__ := fails RuntimeError;
       lookup__name__ := found "f";
       lookup_repr := Return "<object>" |}.

(** The floats [1.0], [0.0] and [0.1] (which is 0x1.999999999999ap-4,
    the float nearest to one tenth). *)
Definition one_second : float := float_of_int 1.
Definition zero_seconds : float := S754_zero false.
Definition tenth_of_a_second : float := S754_finite false 7205759403792794 (-56).

(** The float [0.067], which is 0x1.126e978d4fdf4p-4; its product with
    [1_000_000_000] rounds to [67000000.00000001]. *)
Definition sixty_seven_milliseconds : float :=
  S754_finite false 4827858800541172 (-56).

Definition main_code : CodeType := mkCode "app.py" "main" 10.

(** A task named [Task-1] driving the coroutine [main], suspended at
    line 12. *)
Definition task_suspended : Heap :=
  fun _ =>
    {| __self__ :=
         Some (IsTask (mkTask "Task-1"
                 (IsCoroutineType
                    (mkCoroutine (Some (mkFrame main_code 12)) main_code))));
       __wrapped__ := None; __code__ := None;
       __qualname__ := Some "Task.__step"; __name__ := Some "__step";
       repr := Return "<bound method>" |}.

(** A host whose state is the clock, in nanoseconds; the timer reads
    it; running a handle takes [blocked] nanoseconds and returns [None]
    (here [tt]). *)
Definition clock_timer (now : Z) : Z * Z := (now, now).

Definition blocking_run (blocked : Z) (_ : Handle) : M (World Z) unit :=
  fun w =>
    (Return tt,
     {| Handle_run := Handle_run w; objects := objects w;
        host := (host w + blocked)%Z; sink_calls := sink_calls w |}).

Definition raising_run (e : PyExc) (_ : Handle) : M (World Z) unit :=
  fun w => (Raise e, w).

Definition accepting_logfire : Logfire Z :=
  {| tags := []; ns_timestamp_generator := clock_timer;
     sink_raises := fun _ => None |}.

(** A sink whose [warn] is interrupted from the keyboard. *)
Definition interrupted_logfire : Logfire Z :=
  {| tags := []; ns_timestamp_generator := clock_timer;
     sink_raises := fun _ => Some KeyboardInterrupt |}.

Definition unpatched (objects : Heap) : World Z :=
  {| Handle_run := asyncio_run; objects := objects; host := 0%Z;
     sink_calls := [] |}.

(** ** For the request pipeline *)

Definition accepting_sink : FastAPI.Logfire :=
  {| FastAPI.tags := []; FastAPI.sink_raises := fun _ => None |}.

(** A backend that is down: every [log] and [exception] call raises. *)
Definition failing_sink : FastAPI.Logfire :=
  {| FastAPI.tags := []; FastAPI.sink_raises := fun _ => Some RuntimeError |}.

Definition no_excluded_urls : string -> string -> bool := fun _ _ => false.

Definition pristine : FastAPI.World :=
  {| FastAPI.solve_dependencies := FastAPI.fastapi_solve_dependencies;
     FastAPI.run_endpoint_function := FastAPI.fastapi_run_endpoint_function;
     FastAPI.cells := [];
     FastAPI.events := [] |}.

Definition items_route : FastAPI.Route :=
  FastAPI.mkRoute "/items/{id}" "read_item" (FastAPI.APIRoute None).

(** [GET /items/x] on app 1, matched by the route [/items/{id}]. *)
Definition get_item : FastAPI.Request :=
  FastAPI.mkRequest (FastAPI.IsRequest "GET") 1 "http://testserver/items/x"
    (Some items_route).

(** The same request with no [route] in its scope. *)
Definition get_unrouted : FastAPI.Request :=
  FastAPI.mkRequest (FastAPI.IsRequest "GET") 1 "http://testserver/items/x"
    None.

(** What FastAPI resolved for it: no value, one validation error. *)
Definition invalid_id : FastAPI.SolveResult :=
  {| FastAPI.values := FastAPI.mkValues ∅ None;
     FastAPI.errors := [FastAPI.VStr "value is not a valid integer"];
     FastAPI.rest := [] |}.

Definition resolving (result : FastAPI.SolveResult)
  : FastAPI.Request -> unit -> M FastAPI.World FastAPI.SolveResult :=
  fun _ _ w => (Return result, w).

Definition endpoint_returning (v : FastAPI.pyval)
  : unit -> FastAPI.Values -> unit -> M FastAPI.World FastAPI.pyval :=
  fun _ _ _ w => (Return v, w).

Definition endpoint_raising (e : PyExc)
  : unit -> FastAPI.Values -> unit -> M FastAPI.World FastAPI.pyval :=
  fun _ _ _ w => (Raise e, w).

(** A mapper that opts out of every request. *)
Definition opt_out : FastAPI.Mapper := fun _ _ => Return None.

Definition raising_mapper (e : PyExc) : FastAPI.Mapper := fun _ _ => Raise e.

(** The closure of a first activation for app 1 on [sink]. *)
Definition first_activation (sink : FastAPI.Logfire) (mapper : FastAPI.Mapper)
  : FastAPI.Activation :=
  {| FastAPI.logfire_instance := FastAPI.with_tags sink "fastapi";
     FastAPI.the_app := 1;
     FastAPI.request_attributes_mapper := mapper;
     FastAPI.url_disabled := fun _ => false;
     FastAPI.instrumenting := 0 |}.

Definition flag_on : FastAPI.World :=
  {| FastAPI.solve_dependencies := FastAPI.fastapi_solve_dependencies;
     FastAPI.run_endpoint_function := FastAPI.fastapi_run_endpoint_function;
     FastAPI.cells := [true];
     FastAPI.events := [] |}.

(** A WebSocket connection of app 1, matched by the route [/ws]. *)
Definition open_feed : FastAPI.Request :=
  FastAPI.mkRequest FastAPI.IsWebSocket 1 "ws://testserver/ws"
    (Some (FastAPI.mkRoute "/ws" "feed" FastAPI.APIWebSocketRoute)).

(** The closure of a second activation for app 1. *)
Definition second_activation (sink : FastAPI.Logfire) (mapper : FastAPI.Mapper)
  : FastAPI.Activation :=
  {| FastAPI.logfire_instance := FastAPI.with_tags sink "fastapi";
     FastAPI.the_app := 1;
     FastAPI.request_attributes_mapper := mapper;
     FastAPI.url_disabled := fun _ => false;
     FastAPI.instrumenting := 1 |}.

(** A resolution that fails. *)
Definition failing_resolution (e : PyExc)
  : FastAPI.Request -> unit -> M FastAPI.World FastAPI.SolveResult :=
  fun _ _ w => (Raise e, w).

(** What FastAPI resolved for an endpoint [f(request: Request, id: int)]. *)
Definition request_and_id : FastAPI.SolveResult :=
  {| FastAPI.values :=
       FastAPI.mkValues
         (<["request" := FastAPI.VObject FastAPI.cls_Request 0]>
            (<["id" := FastAPI.VInt 7]> ∅))
         None;
     FastAPI.errors := [];
     FastAPI.rest := [] |}.

Definition both_flags_on : FastAPI.World :=
  {| FastAPI.solve_dependencies := FastAPI.fastapi_solve_dependencies;
     FastAPI.run_endpoint_function := FastAPI.fastapi_run_endpoint_function;
     FastAPI.cells := [true; true];
     FastAPI.events := [] |}.

End Samples.


(* ================================================================== *)
(** * Facts about [_async.py]                                          *)
(* ================================================================== *)

Module AsyncFacts.
Import Async.

(** ** [inspect.unwrap] and chains of wrappers *)

Section Unwrap.
Variable h : Heap.

Lemma chain_functional f l u l' u' :
  wrapped_chain h f l u -> wrapped_chain h f l' u' -> l = l' /\ u = u'.
Proof.
  intros H. revert l' u'.
  induction H as [f Hf | f f' l u Hf Hc IH]; intros l' u' H';
    inversion H' as [g Hg | g g' m v Hg Hc']; subst; try congruence.
  - done.
  - assert (f' = g') by congruence. subst g'.
    destruct (IH _ _ Hc') as [-> ->]. done.
Qed.

Lemma chain_suffix f l u x :
  wrapped_chain h f l u -> x ∈ l ->
  exists l2, wrapped_chain h x l2 u /\ length l2 < length l.
Proof.
  induction 1 as [f Hf | f f' l u Hf Hc IH]; intros Hx.
  - by apply elem_of_nil in Hx.
  - apply elem_of_cons in Hx as [-> | Hx].
    + exists l. split; [done | simpl; lia].
    + destruct (IH Hx) as (l2 & Hl2 & Hlen).
      exists l2. split; [done | simpl; lia].
Qed.

(** A chain that ends never comes back to where it started. *)
Lemma chain_not_in f l u : wrapped_chain h f l u -> f ∉ l.
Proof.
  intros Hc Hin.
  destruct (chain_suffix _ _ _ _ Hc Hin) as (l2 & Hl2 & Hlen).
  destruct (chain_functional _ _ _ _ _ Hc Hl2) as [-> _]. lia.
Qed.

Lemma chain_NoDup f l u : wrapped_chain h f l u -> NoDup (f :: l).
Proof.
  intros Hc. apply NoDup_cons. split; [by eapply chain_not_in |].
  induction Hc as [f Hf | f f' l u Hf Hc IH]; [constructor |].
  apply NoDup_cons. split; [by eapply chain_not_in | done].
Qed.

Lemma unwrap_loop_chain f l u :
  wrapped_chain h f l u ->
  forall f0 remaining memo,
    length l <= remaining ->
    (forall x, x ∈ l -> x ∉ memo) ->
    unwrap_loop h f0 remaining memo f = Return u.
Proof.
  induction 1 as [f Hf | f f' l u Hf Hc IH];
    intros f0 remaining memo Hlen Hmemo.
  - destruct remaining; simpl; by rewrite Hf.
  - destruct remaining as [| remaining]; [simpl in Hlen; lia |].
    simpl. rewrite Hf.
    destruct (decide (f' ∈ memo)) as [Hin | _].
    + exfalso. eapply Hmemo; [apply elem_of_cons; by left | done].
    + apply IH; [simpl in Hlen; lia |].
      intros x Hx Hx'. apply elem_of_cons in Hx' as [-> | Hx'].
      * by eapply chain_not_in.
      * eapply Hmemo; [apply elem_of_cons; by right | done].
Qed.

Lemma unwrap_loop_returns f0 remaining :
  forall memo f u,
    unwrap_loop h f0 remaining memo f = Return u ->
    exists l, wrapped_chain h f l u /\ length l <= remaining.
Proof.
  induction remaining as [| remaining IH]; intros memo f u; simpl;
    destruct (__wrapped__ (h f)) as [f' |] eqn:Hf; intros Hu;
    try discriminate.
  - injection Hu as <-. exists []. split; [by constructor | simpl; lia].
  - destruct (decide (f' ∈ memo)); [discriminate |].
    destruct (IH _ _ _ Hu) as (l & Hl & Hlen).
    exists (f' :: l). split; [by econstructor | simpl; lia].
  - injection Hu as <-. exists []. split; [by constructor | simpl; lia].
Qed.

(** What [unwrap] raises is the wrapper-loop error: a [ValueError],
    unless [repr] of the object it started from raises. *)
Lemma unwrap_loop_raises f0 remaining :
  forall memo f e,
    unwrap_loop h f0 remaining memo f = Raise e ->
    e = wrapper_loop_error (h f0).
Proof.
  induction remaining as [| remaining IH]; intros memo f e; simpl;
    destruct (__wrapped__ (h f)) as [f' |]; intros He;
    try discriminate; try congruence.
  destruct (decide (f' ∈ memo)); [congruence | by eapply IH].
Qed.

Lemma unwrap_raises recursion_limit f e :
  unwrap recursion_limit h f = Raise e -> e = wrapper_loop_error (h f).
Proof. apply unwrap_loop_raises. Qed.

(** [inspect.unwrap] returns the end of the chain of wrappers, however
    long, if the chain ends within the recursion limit; otherwise it
    raises the wrapper-loop error. *)
Lemma unwrap_chain_le recursion_limit f l u :
  wrapped_chain h f l u -> length l <= recursion_limit - 1 ->
  unwrap recursion_limit h f = Return u.
Proof.
  intros Hc Hlen. unfold unwrap.
  apply (unwrap_loop_chain _ _ _ Hc); [lia |].
  intros x Hx Hx'. apply list_elem_of_singleton in Hx'. subst x.
  by eapply chain_not_in.
Qed.

Lemma unwrap_chain recursion_limit f l u :
  wrapped_chain h f l u -> length l < recursion_limit ->
  unwrap recursion_limit h f = Return u.
Proof. intros Hc Hlen. apply (unwrap_chain_le _ _ _ _ Hc). lia. Qed.

Lemma unwrap_returns recursion_limit f u :
  unwrap recursion_limit h f = Return u ->
  exists l, wrapped_chain h f l u /\ length l <= recursion_limit - 1.
Proof. apply unwrap_loop_returns. Qed.

End Unwrap.

(** ** [inspect.unwrap] when lookups may raise *)

Section AnyUnwrap.
Variable h : AnyHeap.

Local Abbreviation plain := (fun a => as_plain (h a)).

Lemma chain_any_plain f l u :
  wrapped_chain_any h f l u <-> wrapped_chain plain f l u.
Proof.
  split.
  - induction 1 as [f Hf | f f' l u Hf Hc IH].
    + by constructor.
    + econstructor; [| done]. simpl. by rewrite Hf.
  - induction 1 as [f Hf | f f' l u Hf Hc IH].
    + by constructor.
    + econstructor; [| done]. simpl in Hf.
      by destruct (lookup__wrapped__ (h f)); simplify_eq/=.
Qed.

(** The general loop runs as the plain one on the objects as [getattr]
    with a default sees them, and then raises if the lookup that stopped
    it failed. *)
Lemma unwrap_loop_any_plain f0 remaining :
  forall memo f,
    unwrap_loop_any h f0 remaining memo f
    = match unwrap_loop plain f0 remaining memo f with
      | Return u =>
          match lookup__wrapped__ (h u) with
          | fails e => Raise e
          | _ => Return u
          end
      | Raise e => Raise e
      end.
Proof.
  induction remaining as [| remaining IH]; intros memo f; simpl;
    destruct (lookup__wrapped__ (h f)) as [f' | | e] eqn:Hf; simpl;
    rewrite ?Hf; try reflexivity.
  destruct (decide (f' ∈ memo)); [reflexivity | apply IH].
Qed.

Lemma unwrap_any_chain recursion_limit f l u :
  wrapped_chain_any h f l u -> length l < recursion_limit ->
  unwrap_any recursion_limit h f
  = match lookup__wrapped__ (h u) with
    | fails e => Raise e
    | _ => Return u
    end.
Proof.
  intros Hc Hlen. unfold unwrap_any. rewrite unwrap_loop_any_plain.
  apply chain_any_plain in Hc.
  pose proof (unwrap_chain plain recursion_limit _ _ _ Hc Hlen) as Hu.
  unfold unwrap in Hu. by rewrite Hu.
Qed.

Lemma unwrap_any_no_chain recursion_limit f :
  0 < recursion_limit ->
  ~ (exists l u, wrapped_chain_any h f l u /\ length l < recursion_limit) ->
  unwrap_any recursion_limit h f = Raise (wrapper_loop_error_any (h f)).
Proof.
  intros Hlimit Hnone. unfold unwrap_any. rewrite unwrap_loop_any_plain.
  destruct (unwrap_loop plain f (recursion_limit - 1) [f] f) as [u | e]
    eqn:Hu.
  - destruct (unwrap_loop_returns plain _ _ _ _ _ Hu) as (l & Hc & Hlen).
    destruct Hnone. exists l, u. split; [by apply chain_any_plain | lia].
  - by rewrite (unwrap_loop_raises plain _ _ _ _ _ Hu).
Qed.

End AnyUnwrap.

(** ** The attribution resolver *)

Section Resolver.
Variable get_stack_info_from_frame : FrameType -> StackInfo.
Variable get_code_object_info : CodeType -> StackInfo.
Variable recursion_limit : nat.

Local Abbreviation resolve :=
  (_callback_attributes get_stack_info_from_frame get_code_object_info
     recursion_limit).

Lemma merge_no_stack_info info : merge_stack_info no_stack_info info = info.
Proof.
  destruct info as [[?|] [?|] [?|]]; reflexivity.
Qed.

Lemma str_or_first_nonempty a b c fallback :
  str_or (str_or (default "" a) (str_or (default "" b) (default "" c)))
    fallback
  = first_nonempty [a; b; c] fallback.
Proof.
  unfold str_or.
  destruct a as [a|], b as [b|], c as [c|]; simpl;
    repeat (destruct (decide _); simpl in *; subst); congruence.
Qed.

Lemma resolve_task h callback task :
  __self__ (h callback) = Some (IsTask task) ->
  resolve h callback
  = Return (task_attributes get_stack_info_from_frame
              get_code_object_info task).
Proof. intros H. unfold _callback_attributes. by rewrite H. Qed.

Lemma resolve_callable h callback :
  (forall task, __self__ (h callback) <> Some (IsTask task)) ->
  resolve h callback
  = match unwrap recursion_limit h callback with
    | Return u => Return (callable_attributes get_code_object_info (h u))
    | Raise e => Raise e
    end.
Proof.
  intros H. unfold _callback_attributes.
  destruct (__self__ (h callback)) as [[task|]|]; try done.
  by destruct (H task).
Qed.

Lemma task_attributes_spec task :
  let r := task_attributes get_stack_info_from_frame
             get_code_object_info task in
  match get_coro task with
  | NotCoroutineType =>
      r = mkAttrs ("task " ++ get_name task) no_stack_info
  | IsCoroutineType coro =>
      let info :=
        match cr_frame coro with
        | Some frame => get_stack_info_from_frame frame
        | None => get_code_object_info (cr_code coro)
        end in
      stack_info r = info /\
      name r =
        match code_function info with
        | Some function_name =>
            if decide (function_name = "") then "task " ++ get_name task
            else ("task " ++ get_name task) ++ " (" ++ function_name ++ ")"
        | None => "task " ++ get_name task
        end
  end.
Proof.
  unfold task_attributes.
  destruct (get_coro task) as [coro|]; [| reflexivity].
  unfold append_function_name, merge_result. simpl.
  destruct (cr_frame coro) as [frame|]; rewrite merge_no_stack_info;
    simpl;
    match goal with
    | |- context [code_function ?i] => destruct (code_function i) as [fn|]
    end; try case_decide; simpl; by rewrite ?merge_no_stack_info.
Qed.

Lemma callable_attributes_spec obj :
  let r := callable_attributes get_code_object_info obj in
  let info :=
    match __code__ obj with
    | Some code => get_code_object_info code
    | None => no_stack_info
    end in
  stack_info r = info /\
  name r =
    "callback " ++
      first_nonempty [__qualname__ obj; __name__ obj; code_function info]
        (safe_repr obj).
Proof.
  unfold callable_attributes. simpl.
  rewrite str_or_first_nonempty.
  destruct (__code__ obj); by rewrite ?merge_no_stack_info.
Qed.

(** C7, the attribution algorithm as the code runs it.  First match:
    a callback bound to a task is named "task {task_name}"; when the
    task drives a coroutine, the source location is that of its
    suspended frame while it is live and that of its code object alone
    once it has finished, and " ({function})" is appended when a
    function name was found.  Any other callback is followed through
    the whole chain of [__wrapped__] attributes, every layer of it, to
    the innermost callable [u]; the location comes from the code object
    of [u] if it has one, and the name is "callback " followed by the
    first non-empty of its qualified name, its plain name, the function
    name of its code object, and else its safe representation. *)
Theorem callback_attributes_algorithm h callback :
  (forall task,
     __self__ (h callback) = Some (IsTask task) ->
     exists r,
       resolve h callback = Return r /\
       match get_coro task with
       | NotCoroutineType =>
           r = mkAttrs ("task " ++ get_name task) no_stack_info
       | IsCoroutineType coro =>
           let info :=
             match cr_frame coro with
             | Some frame => get_stack_info_from_frame frame
             | None => get_code_object_info (cr_code coro)
             end in
           stack_info r = info /\
           name r =
             match code_function info with
             | Some function_name =>
                 if decide (function_name = "")
                 then "task " ++ get_name task
                 else ("task " ++ get_name task)
                        ++ " (" ++ function_name ++ ")"
             | None => "task " ++ get_name task
             end
       end) /\
  ((forall task, __self__ (h callback) <> Some (IsTask task)) ->
   forall l u,
     wrapped_chain h callback l u -> length l < recursion_limit ->
     exists r,
       resolve h callback = Return r /\
       let info :=
         match __code__ (h u) with
         | Some code => get_code_object_info code
         | None => no_stack_info
         end in
       stack_info r = info /\
       name r =
         "callback " ++
           first_nonempty
             [__qualname__ (h u); __name__ (h u); code_function info]
             (safe_repr (h u))).
Proof.
  split.
  - intros task Hself. eexists. split; [by apply resolve_task |].
    apply task_attributes_spec.
  - intros Hself l u Hchain Hlen. eexists. split.
    + rewrite (resolve_callable _ _ Hself).
      by rewrite (unwrap_chain _ _ _ _ _ Hchain Hlen).
    + apply callable_attributes_spec.
Qed.

Lemma str_or_else_Return a b :
  str_or_else (Return a) (Return b) = Return (str_or a b).
Proof. unfold str_or_else, str_or. by destruct (decide _). Qed.

(** On an object none of whose lookups fails, the second branch is the
    one of the plain object. *)
Lemma callable_any_returns obj :
  (forall e, lookup__code__ obj <> fails e) ->
  (forall e, lookup__qualname__ obj <> fails e) ->
  (forall e, lookup__name__ obj <> fails e) ->
  callable_attributes_any get_code_object_info obj
  = Return (callable_attributes get_code_object_info (as_plain obj)).
Proof.
  intros Hcode Hqualname Hname.
  unfold callable_attributes_any, callable_attributes, safe_repr_any,
    safe_repr.
  destruct (lookup__code__ obj) as [code | | e] eqn:Ec;
    [| | by destruct (Hcode e)];
    (destruct (lookup__qualname__ obj) as [q | | e] eqn:Eq;
       [| | by destruct (Hqualname e)]);
    (destruct (lookup__name__ obj) as [n | | e] eqn:En;
       [| | by destruct (Hname e)]);
    cbn [getattr_None getattr as_plain found_value __code__ __qualname__
         __name__ repr default from_option];
    rewrite ?Ec, ?Eq, ?En;
    cbn [found_value default from_option];
    by rewrite !str_or_else_Return.
Qed.

Lemma callable_any_raises obj e :
  callable_attributes_any get_code_object_info obj = Raise e ->
  lookup__code__ obj = fails e \/
  lookup__qualname__ obj = fails e \/
  lookup__name__ obj = fails e.
Proof.
  unfold callable_attributes_any, str_or_else.
  destruct (lookup__code__ obj) as [code | | e1];
    destruct (lookup__qualname__ obj) as [q | | e2];
    destruct (lookup__name__ obj) as [n | | e3];
    cbn [getattr_None getattr];
    repeat (destruct (decide _)); intros He; simplify_eq/=; eauto.
Qed.

Lemma resolve_any_cases (h : AnyHeap) callback :
  _callback_attributes_any get_stack_info_from_frame get_code_object_info
    recursion_limit h callback
  = match lookup__self__ (h callback) with
    | fails e => Raise e
    | found (IsTask task) =>
        Return (task_attributes get_stack_info_from_frame
                  get_code_object_info task)
    | _ =>
        match unwrap_any recursion_limit h callback with
        | Return u => callable_attributes_any get_code_object_info (h u)
        | Raise e => Raise e
        end
    end.
Proof.
  unfold _callback_attributes_any.
  by destruct (lookup__self__ (h callback)) as [[task |] | | e].
Qed.

(** On objects whose lookups are plain the general resolver is
    [_callback_attributes]. *)
Lemma resolve_any_plain (h : Heap) callback :
  _callback_attributes_any get_stack_info_from_frame get_code_object_info
    recursion_limit (fun a => as_any (h a)) callback
  = resolve h callback.
Proof.
  assert (Hplain : forall obj, as_plain (as_any obj) = obj).
  { intros [[?|] [?|] [?|] [?|] [?|] ?]; reflexivity. }
  assert (Hloop : forall remaining memo f0 f,
             unwrap_loop_any (fun a => as_any (h a)) f0 remaining memo f
             = unwrap_loop h f0 remaining memo f).
  { induction remaining as [| remaining IH]; intros memo f0 f; simpl;
      unfold wrapper_loop_error_any, wrapper_loop_error; simpl;
      destruct (__wrapped__ (h f)) as [f' |]; simpl; try reflexivity.
    destruct (decide (f' ∈ memo)); [reflexivity | apply IH]. }
  rewrite resolve_any_cases. unfold _callback_attributes, unwrap_any, unwrap.
  rewrite Hloop. simpl.
  destruct (__self__ (h callback)) as [[task |] |]; simpl; try reflexivity;
    (destruct (unwrap_loop h callback (recursion_limit - 1) [callback]
                 callback) as [u | e]; [| reflexivity];
     rewrite callable_any_returns, Hplain;
       [reflexivity | | |]; intros e; simpl;
     match goal with
     | |- plain_lookup ?o <> _ => by destruct o
     end).
Qed.


End Resolver.

(** ** The latency monitor *)

Section Monitor.
Context {Host Value : Type}.
Variable asyncio_Handle_run : Handle -> M (World Host) Value.
Variable get_stack_info_from_frame : FrameType -> StackInfo.
Variable get_code_object_info : CodeType -> StackInfo.
Variable recursion_limit : nat.

Local Abbreviation resolve :=
  (_callback_attributes get_stack_info_from_frame get_code_object_info
     recursion_limit).
Local Abbreviation patched_run :=
  (Async.patched_run (Value := Value) get_stack_info_from_frame
     get_code_object_info recursion_limit).
Local Abbreviation report_slow_callback :=
  (Async.report_slow_callback (Host := Host) get_stack_info_from_frame
     get_code_object_info recursion_limit).
Local Abbreviation call_run :=
  (Async.call_run asyncio_Handle_run get_stack_info_from_frame
     get_code_object_info recursion_limit).
Local Abbreviation run_handle :=
  (Async.run_handle asyncio_Handle_run get_stack_info_from_frame
     get_code_object_info recursion_limit).

Lemma report_slow_callback_unfold logfire self elapsed (w : World Host) :
  report_slow_callback logfire self elapsed w
  = match int_truediv elapsed ONE_SECOND_IN_NANOSECONDS with
    | Return seconds =>
        match resolve (objects w) (_callback self) with
        | Return attributes =>
            match
              sink_raises logfire (slow_report logfire seconds attributes)
            with
            | Some e =>
                (Raise e,
                 add_report (slow_report logfire seconds attributes) w)
            | None =>
                (Return tt,
                 add_report (slow_report logfire seconds attributes) w)
            end
        | Raise e => (Raise e, w)
        end
    | Raise e => (Raise e, w)
    end.
Proof.
  unfold Async.report_slow_callback, bind, lift, callback_attributes_now,
    logfire_warn, slow_report.
  destruct (int_truediv elapsed ONE_SECOND_IN_NANOSECONDS); [| reflexivity].
  by destruct (resolve (objects w) (_callback self)).
Qed.

(** The division raises nothing but instances of [Exception]. *)
Lemma int_truediv_raises_Exception a b e :
  int_truediv a b = Raise e -> is_Exception e = true.
Proof.
  unfold int_truediv. destruct (b =? 0)%Z; [by intros [= <-] |].
  destruct (SFdiv prec emax (exact_int a) (exact_int b)); try discriminate.
  by intros [= <-].
Qed.

(** What the resolver raises is the wrapper-loop error of
    [inspect.unwrap]. *)
Lemma resolve_raises_wrapper_loop_error h callback e :
  resolve h callback = Raise e -> e = wrapper_loop_error (h callback).
Proof.
  unfold _callback_attributes.
  destruct (__self__ (h callback)) as [[task|]|]; try done;
    (destruct (unwrap recursion_limit h callback) eqn:Hu; [done |];
     intros [= <-]; by apply (unwrap_raises _ _ _ _ Hu)).
Qed.

Section OneCall.
Variable original_run : Handle -> M (World Host) Value.
Variable logfire : Logfire Host.
Variable timer : Host -> Z * Host.
Variable slow_duration : float.
Variable self : Handle.
Variables (w w1 : World Host) (start_time : Z).
Hypothesis Hstart : call_timer timer w = (Return start_time, w1).

(** What the host raises goes through, and nothing is reported. *)
Lemma patched_run_host_raises e w2 :
  original_run self w1 = (Raise e, w2) ->
  patched_run original_run logfire timer slow_duration self w
  = (Raise e, w2).
Proof.
  intros Horig. unfold Async.patched_run, bind.
  by rewrite Hstart, Horig.
Qed.

Variables (return_value : Value) (w2 w3 : World Host) (now : Z).
Hypothesis Horig : original_run self w1 = (Return return_value, w2).
Hypothesis Hnow : call_timer timer w2 = (Return now, w3).

Lemma patched_run_below_threshold :
  int_ge_float (now - start_time) slow_duration = false ->
  patched_run original_run logfire timer slow_duration self w
  = (Return return_value, w3).
Proof.
  intros Hlt. unfold Async.patched_run, bind.
  by rewrite Hstart, Horig, Hnow, Hlt.
Qed.

Lemma patched_run_at_threshold :
  int_ge_float (now - start_time) slow_duration = true ->
  patched_run original_run logfire timer slow_duration self w
  = match report_slow_callback logfire self (now - start_time)%Z w3 with
    | (Return _, w4) => (Return return_value, w4)
    | (Raise e, w4) =>
        if is_Exception e then (Return return_value, w4)
        else (Raise e, w4)
    end.
Proof.
  intros Hle.
  unfold Async.patched_run, bind.
  rewrite Hstart, Horig, Hnow, Hle.
  unfold try_except_Exception, ret.
  destruct (report_slow_callback logfire self (now - start_time)%Z w3)
    as [[[] | e] w4]; [reflexivity |].
  by destruct (is_Exception e).
Qed.

(** Whatever goes wrong while reporting, as long as it is an
    instance of [Exception], the handle's own result is returned. *)
Lemma patched_run_returns_original :
  (forall e,
     resolve (objects w3) (_callback self) = Raise e ->
     is_Exception e = true) ->
  (forall report e,
     sink_raises logfire report = Some e -> is_Exception e = true) ->
  fst (patched_run original_run logfire timer slow_duration self w)
  = Return return_value.
Proof.
  intros Hresolver Hsink.
  destruct (int_ge_float (now - start_time) slow_duration) eqn:Hge.
  - rewrite (patched_run_at_threshold Hge), report_slow_callback_unfold.
    destruct (int_truediv _ _) as [seconds | e] eqn:Hdiv.
    + destruct (resolve (objects w3) (_callback self)) as [attrs | e] eqn:Hr.
      * destruct (sink_raises logfire _) as [e |] eqn:Hs; [| reflexivity].
        by rewrite (Hsink _ _ Hs).
      * by rewrite (Hresolver _ eq_refl).
    + by rewrite (int_truediv_raises_Exception _ _ _ Hdiv).
  - by rewrite patched_run_below_threshold.
Qed.

End OneCall.

(** C2, as amended.  Once [log_slow_callbacks logfire slow_duration] has
    installed its patch, the threshold is the float product of
    [slow_duration] and [ONE_SECOND_IN_NANOSECONDS], and a handle whose
    run took [elapsed] nanoseconds on the injected timer is compared with
    it as [elapsed >= threshold], exactly.  When the comparison is false
    the world is as the host left it, nothing reported.  When it is true
    the monitor reports at most once: when the float division of
    [elapsed] by one second returns [seconds] and the resolver returns a
    descriptor, exactly one warning "Async {name} blocked for
    {duration:.3f} seconds", tagged "slow-async", with [duration] equal
    to [seconds]; when the division or the resolver raises, nothing. *)
Theorem slow_callback_report logfire slow_duration w0 self
    w start_time w1 return_value w2 now w3 :
  Handle_run w
  = Handle_run (snd (log_slow_callbacks logfire slow_duration w0)) ->
  call_timer (ns_timestamp_generator logfire) w = (Return start_time, w1) ->
  call_run (Handle_run w0) self w1 = (Return return_value, w2) ->
  call_timer (ns_timestamp_generator logfire) w2 = (Return now, w3) ->
  let elapsed := (now - start_time)%Z in
  let threshold :=
    float_mul slow_duration (float_of_int ONE_SECOND_IN_NANOSECONDS) in
  let after := snd (run_handle self w) in
  (int_ge_float elapsed threshold = false -> after = w3) /\
  (int_ge_float elapsed threshold = true ->
   match
     int_truediv elapsed ONE_SECOND_IN_NANOSECONDS,
     resolve (objects w3) (_callback self)
   with
   | Return seconds, Return attributes =>
       after
       = add_report
           (slow_report (with_tags logfire "slow-async") seconds attributes)
           w3
   | _, _ => after = w3
   end).
Proof.
  intros Hrun Hstart Horig Hnow elapsed threshold after.
  subst after. unfold Async.run_handle. rewrite Hrun. simpl.
  split.
  - intros Hlt.
    by erewrite patched_run_below_threshold.
  - intros Hle.
    erewrite patched_run_at_threshold by done.
    rewrite report_slow_callback_unfold.
    destruct (int_truediv _ _) as [seconds | e] eqn:Hdiv.
    + destruct (resolve (objects w3) (_callback self)) as [attrs | e] eqn:Hr.
      * destruct (sink_raises _ _) as [e |]; [| reflexivity].
        by destruct (is_Exception e).
      * by destruct (is_Exception e).
    + rewrite (int_truediv_raises_Exception _ _ _ Hdiv).
      by destruct (resolve (objects w3) (_callback self)).
Qed.

(** C3.  Activating the monitor and leaving [patch_context], whether
    the body returned or raised (its outcome is kept), puts back the
    function that [Handle._run] held before the activation; the exit
    touches nothing else.  From then on running a handle is running
    that function, and when it was asyncio's own, a handle runs exactly
    as it does with no monitor: same result or exception, same world,
    so no report whatever the duration. *)
Theorem patch_context_restores_original_run {A} logfire slow_duration
    (body : M (World Host) A) w0 :
  let activated := snd (log_slow_callbacks logfire slow_duration w0) in
  let left :=
    (let* cm := log_slow_callbacks logfire slow_duration in
     patch_context cm body) w0 in
  fst left = fst (body activated) /\
  Handle_run (snd left) = Handle_run w0 /\
  objects (snd left) = objects (snd (body activated)) /\
  host (snd left) = host (snd (body activated)) /\
  sink_calls (snd left) = sink_calls (snd (body activated)) /\
  (forall self w,
     Handle_run w = Handle_run (snd left) ->
     run_handle self w = call_run (Handle_run w0) self w) /\
  (Handle_run w0 = asyncio_run ->
   forall self w,
     Handle_run w = Handle_run (snd left) ->
     run_handle self w = asyncio_Handle_run self w).
Proof.
  intros activated left. subst activated left.
  unfold bind, log_slow_callbacks, patch_context, try_finally. simpl.
  destruct (body _) as [r w']. simpl.
  repeat split; try done.
  - intros self w Hw. unfold Async.run_handle. by rewrite Hw.
  - intros Hbase self w Hw. unfold Async.run_handle.
    by rewrite Hw, Hbase.
Qed.

End Monitor.

(** C2 as worded fails on a callback that wraps itself: it blocks for
    two seconds under a threshold of one, and nothing is reported. *)
Lemma slow_callback_with_wrapper_loop_not_reported :
  let w :=
    snd (log_slow_callbacks Samples.accepting_logfire Samples.one_second
           (Samples.unpatched Samples.wrapper_loop)) in
  let after :=
    snd (run_handle (Samples.blocking_run 2000000000) Samples.frame_info
           Samples.code_info 1000 (mkHandle 0) w) in
  host after = 2000000000%Z /\
  int_ge_float (host after - host w)
    (float_mul Samples.one_second (float_of_int ONE_SECOND_IN_NANOSECONDS))
  = true /\
  sink_calls after = [].
Proof. vm_compute. split; [done | split; done]. Qed.

Lemma slow_callback_report_witness :
  let slow :=
    snd (log_slow_callbacks Samples.accepting_logfire
           Samples.tenth_of_a_second
           (Samples.unpatched Samples.twice_wrapped)) in
  let quick :=
    snd (log_slow_callbacks Samples.accepting_logfire
           Samples.sixty_seven_milliseconds
           (Samples.unpatched Samples.twice_wrapped)) in
  sink_calls
    (snd (run_handle (Samples.blocking_run 100000000) Samples.frame_info
            Samples.code_info 1000 (mkHandle 0) slow))
  = [slow_report (with_tags Samples.accepting_logfire "slow-async")
       Samples.tenth_of_a_second
       (mkAttrs "callback inner" no_stack_info)] /\
  sink_calls
    (snd (run_handle (Samples.blocking_run 67000000) Samples.frame_info
            Samples.code_info 1000 (mkHandle 0) quick))
  = [].
Proof.
  intros slow quick.
  pose proof (slow_callback_report (Samples.blocking_run 100000000)
                Samples.frame_info Samples.code_info 1000
                Samples.accepting_logfire Samples.tenth_of_a_second
                (Samples.unpatched Samples.twice_wrapped) (mkHandle 0)
                slow 0%Z slow tt
                (snd (Samples.blocking_run 100000000 (mkHandle 0) slow))
                100000000%Z
                (snd (Samples.blocking_run 100000000 (mkHandle 0) slow))
                eq_refl eq_refl eq_refl eq_refl) as [_ Hslow].
  specialize (Hslow ltac:(vm_compute; reflexivity)).
  pose proof (slow_callback_report (Samples.blocking_run 67000000)
                Samples.frame_info Samples.code_info 1000
                Samples.accepting_logfire Samples.sixty_seven_milliseconds
                (Samples.unpatched Samples.twice_wrapped) (mkHandle 0)
                quick 0%Z quick tt
                (snd (Samples.blocking_run 67000000 (mkHandle 0) quick))
                67000000%Z
                (snd (Samples.blocking_run 67000000 (mkHandle 0) quick))
                eq_refl eq_refl eq_refl eq_refl) as [Hquick _].
  specialize (Hquick ltac:(vm_compute; reflexivity)).
  split.
  - exact (f_equal sink_calls Hslow).
  - exact (f_equal sink_calls Hquick).
Defined.

Lemma patch_context_restores_original_run_witness :
  let left :=
    (let* cm :=
       log_slow_callbacks Samples.accepting_logfire Samples.one_second in
     patch_context cm (raise RuntimeError))
      (Samples.unpatched Samples.twice_wrapped) in
  fst left = Raise (A := unit) RuntimeError /\
  run_handle (Samples.blocking_run 2000000000) Samples.frame_info
    Samples.code_info 1000 (mkHandle 0) (snd left)
  = Samples.blocking_run 2000000000 (mkHandle 0) (snd left).
Proof.
  intros left.
  pose proof (patch_context_restores_original_run
                (Samples.blocking_run 2000000000) Samples.frame_info
                Samples.code_info 1000 Samples.accepting_logfire
                Samples.one_second
                (raise (A := unit) RuntimeError)
                (Samples.unpatched Samples.twice_wrapped))
    as (Hout & _ & _ & _ & _ & _ & Hbase).
  split; [exact Hout |].
  exact (Hbase eq_refl (mkHandle 0) (snd left) eq_refl).
Defined.

(** C7 as worded fails on a callback wrapped twice: one layer down is
    [middle], the code goes on to [inner]. *)
Lemma callback_attributes_unwraps_every_layer :
  _callback_attributes Samples.frame_info Samples.code_info 1000
    Samples.twice_wrapped 0
  = Return (mkAttrs "callback inner" no_stack_info) /\
  one_layer_callback_attributes Samples.frame_info Samples.code_info
    Samples.twice_wrapped 0
  = Return (mkAttrs "callback middle" no_stack_info) /\
  _callback_attributes Samples.frame_info Samples.code_info 1000
    Samples.twice_wrapped 0
  <> one_layer_callback_attributes Samples.frame_info Samples.code_info
    Samples.twice_wrapped 0.
Proof. vm_compute. split; [done | split; [done | discriminate]]. Qed.

Lemma callback_attributes_algorithm_witness :
  (exists r,
     _callback_attributes Samples.frame_info Samples.code_info 1000
       Samples.task_suspended 0 = Return r /\
     stack_info r = Samples.frame_info (mkFrame Samples.main_code 12) /\
     name r = "task Task-1 (main)") /\
  (exists r,
     _callback_attributes Samples.frame_info Samples.code_info 1000
       Samples.twice_wrapped 0 = Return r /\
     stack_info r = no_stack_info /\
     name r = "callback inner").
Proof.
  pose proof (callback_attributes_algorithm Samples.frame_info
                Samples.code_info 1000 Samples.task_suspended 0) as [Ht _].
  pose proof (callback_attributes_algorithm Samples.frame_info
                Samples.code_info 1000 Samples.twice_wrapped 0) as [_ Hc].
  split.
  - destruct (Ht _ eq_refl) as (r & Hr & Hspec). exists r.
    split; [exact Hr | exact Hspec].
  - assert (Hchain : wrapped_chain Samples.twice_wrapped 0 [1; 2] 2).
    { apply chain_step with (f' := 1); [reflexivity |].
      apply chain_step with (f' := 2); [reflexivity |].
      apply chain_end. reflexivity. }
    destruct (Hc ltac:(intros task; discriminate) _ _ Hchain
                ltac:(simpl; lia)) as (r & Hr & Hspec).
    exists r. split; [exact Hr | exact Hspec].
Defined.



End AsyncFacts.

(* ================================================================== *)
(** * Facts about [_fastapi.py]                                        *)
(* ================================================================== *)

Module FastAPIFacts.
Import FastAPI.

Section Patches.
Context {Kwargs Dependant : Type}.

(** ** The dependency-resolution stage *)

Section Solve.
Variable closure : Activation.
Variable original : Request -> Kwargs -> M World SolveResult.
Variable request : Request.
Variable kwargs : Kwargs.
Variable w : World.

Local Abbreviation sink := (logfire_instance closure).

Lemma solve_host_raises e w1 :
  original request kwargs w = (Raise e, w1) ->
  patched_solve_dependencies closure original request kwargs w
  = (Raise e, w1).
Proof.
  intros H. unfold patched_solve_dependencies, bind. by rewrite H.
Qed.

Variables (result : SolveResult) (w1 : World).
Hypothesis Horiginal : original request kwargs w = (Return result, w1).

Local Abbreviation result' := (returned_result request result).
Local Abbreviation handled := (except_clause closure result').

Lemma solve_cases :
  patched_solve_dependencies closure original request kwargs w
  = if read_cell w1 (instrumenting closure)
       && bool_decide (app request = the_app closure)
       && negb (url_disabled closure (url request))
    then
      match request_attributes_mapper closure request
              (initial_attributes result) with
      | Raise e => if is_Exception e then handled w1 else (Raise e, w1)
      | Return None => (Return result', w1)
      | Return (Some attributes) =>
          if truthy (VDict attributes) then
            let event := arguments_event closure request attributes in
            match sink_raises sink event with
            | Some e =>
                if is_Exception e then handled (emit event w1)
                else (Raise e, emit event w1)
            | None => (Return result', emit event w1)
            end
          else (Return result', w1)
      end
    else (Return result, w1).
Proof.
  unfold patched_solve_dependencies, bind at 1. rewrite Horiginal.
  unfold run_frame, try_except_Exception, solve_try_body, bind,
    in_world, instrumenting_request, get_result, set_result, ret, lift,
    logfire_log, logfire_exception, sink_call.
  cbn [world FastAPI.result fst snd].
  unfold except_clause, returned_result, error_event, arguments_event.
  destruct (read_cell w1 (instrumenting closure)
            && bool_decide (app request = the_app closure)
            && negb (url_disabled closure (url request)));
    cbn [negb]; [| reflexivity].
  destruct (is_Request request); cbn [world FastAPI.result];
    (destruct (request_attributes_mapper closure request
                 (initial_attributes result)) as [[attributes |] | e];
     cbn [world FastAPI.result];
     [ destruct (truthy (VDict attributes)); cbn [world FastAPI.result];
       [ destruct (sink_raises sink _) as [e |];
         cbn [world FastAPI.result];
         [ destruct (is_Exception e); cbn [world FastAPI.result];
           [ destruct (sink_raises sink _); reflexivity | reflexivity ]
         | reflexivity ]
       | reflexivity ]
     | reflexivity
     | destruct (is_Exception e); cbn [world FastAPI.result];
       [ destruct (sink_raises sink _); reflexivity | reflexivity ] ]).
Qed.

Lemma returned_result_same_data :
  items (values result') = items (values result) /\
  errors result' = errors result /\
  rest result' = rest result.
Proof.
  unfold returned_result. by destruct (is_Request request).
Qed.

Lemma solve_gate_closed :
  read_cell w1 (instrumenting closure) = false \/
  app request <> the_app closure \/
  url_disabled closure (url request) = true ->
  patched_solve_dependencies closure original request kwargs w
  = (Return result, w1).
Proof.
  intros Hgate. rewrite solve_cases.
  destruct Hgate as [-> | [Happ | ->]]; [done | |].
  - rewrite (bool_decide_eq_false_2 _ Happ).
    by rewrite andb_false_r.
  - by rewrite andb_false_r.
Qed.

Lemma solve_mapper_falsy a :
  request_attributes_mapper closure request (initial_attributes result)
  = Return a ->
  falsy a = true ->
  patched_solve_dependencies closure original request kwargs w
  = (Return result', w1) \/
  patched_solve_dependencies closure original request kwargs w
  = (Return result, w1).
Proof.
  intros Hmapper Hfalsy. rewrite solve_cases, Hmapper.
  destruct (_ && _ && _); [left | by right].
  destruct a as [attributes |]; [| done].
  unfold falsy in Hfalsy.
  by destruct (truthy (VDict attributes)).
Qed.

Section GateOpen.
Hypothesis Hflag : read_cell w1 (instrumenting closure) = true.
Hypothesis Happ : app request = the_app closure.
Hypothesis Hurl : url_disabled closure (url request) = false.

Lemma solve_gate_open :
  patched_solve_dependencies closure original request kwargs w
  = match request_attributes_mapper closure request
            (initial_attributes result) with
    | Raise e => if is_Exception e then handled w1 else (Raise e, w1)
    | Return None => (Return result', w1)
    | Return (Some attributes) =>
        if truthy (VDict attributes) then
          let event := arguments_event closure request attributes in
          match sink_raises sink event with
          | Some e =>
              if is_Exception e then handled (emit event w1)
              else (Raise e, emit event w1)
          | None => (Return result', emit event w1)
          end
        else (Return result', w1)
    end.
Proof.
  rewrite solve_cases, Hflag, Hurl.
  by rewrite (bool_decide_eq_true_2 _ Happ).
Qed.

(** Past the gate, whatever is returned is [result']. *)
Lemma solve_gate_open_returns r w2 :
  patched_solve_dependencies closure original request kwargs w
  = (Return r, w2) ->
  r = result'.
Proof.
  rewrite solve_gate_open. unfold except_clause.
  repeat (match goal with
          | |- context [match ?x with _ => _ end] => destruct x
          | |- context [if ?x then _ else _] => destruct x
          end; cbn zeta); congruence.
Qed.

End GateOpen.

End Solve.

(** What [add_request_attributes] leaves in the bundle, key by key. *)
Lemma add_request_attributes_lookup request attributes k :
  add_request_attributes request attributes !! k
  = if decide (k = "fastapi.route.operation_id") then
      match scope_route request with
      | Some (mkRoute _ _ (APIRoute operation_id)) =>
          Some (opt_str operation_id)
      | _ => attributes !! k
      end
    else if decide (k = "fastapi.route.name") then
      match scope_route request with
      | Some route => Some (VStr (route_name route))
      | None => attributes !! k
      end
    else if decide (k = "http.route") then
      match scope_route request with
      | Some route => Some (VStr (path route))
      | None => attributes !! k
      end
    else if decide (k = "http.method") then
      match connection request with
      | IsRequest method => Some (VStr method)
      | IsWebSocket => attributes !! k
      end
    else attributes !! k.
Proof.
  unfold add_request_attributes.
  destruct (scope_route request) as [[p n [op |]] |],
           (connection request) as [m |];
    cbn [route_class route_name path];
    repeat (case_decide; subst);
    rewrite ?lookup_insert_eq; try done;
    repeat (rewrite lookup_insert_ne by done; rewrite ?lookup_insert_eq);
    done.
Qed.

Lemma initial_attributes_lookup result k :
  initial_attributes result !! k
  = if decide (k = "errors") then Some (VList (errors result))
    else if decide (k = "values") then
      Some (VDict (filter (fun kv => is_framework_object kv.2 = false)
                     (items (values result))))
    else None.
Proof.
  unfold initial_attributes.
  repeat (case_decide; subst);
    rewrite ?lookup_insert_eq; try done;
    repeat (rewrite lookup_insert_ne by done; rewrite ?lookup_insert_eq);
    done.
Qed.

(** C5.  When the activation flag is false, or the request is not of
    the instrumented app, or its URL is excluded, the stage returns the
    very result of the original resolution and leaves the world as the
    original left it: nothing is reported.  When the mapper returns a
    falsy value nothing is reported either, and what is returned has the
    resolved values (the same items), the errors and the remaining
    components of the original result; the mapping holding the values is
    the original one or, for an HTTP request, its [_InstrumentedValues]
    copy. *)
Theorem solve_dependencies_gated_or_opted_out closure
    (original : Request -> Kwargs -> M World SolveResult)
    request kwargs w result w1 :
  original request kwargs w = (Return result, w1) ->
  (read_cell w1 (instrumenting closure) = false \/
   app request <> the_app closure \/
   url_disabled closure (url request) = true ->
   patched_solve_dependencies closure original request kwargs w
   = (Return result, w1)) /\
  (forall a,
     request_attributes_mapper closure request (initial_attributes result)
     = Return a ->
     falsy a = true ->
     exists returned,
       patched_solve_dependencies closure original request kwargs w
       = (Return returned, w1) /\
       items (values returned) = items (values result) /\
       errors returned = errors result /\
       rest returned = rest result /\
       (returned = result \/
        is_Request request = true /\
        returned = instrumented_result request result)).
Proof.
  intros Horiginal. split.
  - by apply solve_gate_closed.
  - intros a Hmapper Hfalsy.
    destruct (solve_mapper_falsy closure original request kwargs w
                result w1 Horiginal a Hmapper Hfalsy) as [H | H];
      eexists; (split; [exact H |]).
    + destruct (returned_result_same_data request result) as (? & ? & ?).
      repeat split; try done.
      unfold returned_result. destruct (is_Request request); auto.
    + auto.
Qed.

(** C6, as amended.  For a request past the gate whose mapper returned
    a truthy bundle, the stage makes exactly one "FastAPI arguments"
    report, followed by nothing, or by the error diagnostic when the sink
    raised on it; its level is [error] when the mapper's bundle has a
    truthy "errors" and [debug] otherwise.  The bundle the mapper was
    given holds "values" and "errors" and nothing else.  The bundle
    reported is the mapper's with, added afterwards: the HTTP method for
    every [Request] (a WebSocket has none), whether or not a route was
    matched; the route's path and name when a route was matched; the
    operation id when that route is an [APIRoute]. *)
Theorem arguments_report closure
    (original : Request -> Kwargs -> M World SolveResult)
    request kwargs w result w1 attributes :
  original request kwargs w = (Return result, w1) ->
  read_cell w1 (instrumenting closure) = true ->
  app request = the_app closure ->
  url_disabled closure (url request) = false ->
  request_attributes_mapper closure request (initial_attributes result)
  = Return (Some attributes) ->
  truthy (VDict attributes) = true ->
  let after :=
    snd (patched_solve_dependencies closure original request kwargs w) in
  let reported := add_request_attributes request attributes in
  let level :=
    if truthy (default VNone (attributes !! "errors")) then error
    else debug in
  let report :=
    Log (tags (logfire_instance closure)) level "FastAPI arguments"
      reported in
  (exists tail,
     events after = (events w1 ++ report :: tail)%list /\
     (tail = [] \/ tail = [error_event closure]) /\
     (sink_raises (logfire_instance closure) report = None -> tail = [])) /\
  (forall k, k <> "values" -> k <> "errors" ->
             initial_attributes result !! k = None) /\
  (forall method,
     connection request = IsRequest method ->
     reported !! "http.method" = Some (VStr method)) /\
  (connection request = IsWebSocket ->
   reported !! "http.method" = attributes !! "http.method") /\
  (forall route,
     scope_route request = Some route ->
     reported !! "http.route" = Some (VStr (path route)) /\
     reported !! "fastapi.route.name" = Some (VStr (route_name route)) /\
     reported !! "fastapi.route.operation_id"
     = match route_class route with
       | APIRoute operation_id => Some (opt_str operation_id)
       | APIWebSocketRoute =>
           attributes !! "fastapi.route.operation_id"
       end) /\
  (scope_route request = None ->
   forall k, k <> "http.method" -> reported !! k = attributes !! k).
Proof.
  intros Horiginal Hflag Happ Hurl Hmapper Htruthy after reported level
    report.
  split; [| split; [| split; [| split; [| split]]]].
  - subst after.
    rewrite (solve_gate_open closure original request kwargs w result w1
               Horiginal Hflag Happ Hurl), Hmapper, Htruthy.
    cbn zeta. unfold arguments_event, report_level.
    fold level. fold reported. fold report.
    destruct (sink_raises (logfire_instance closure) report) as [e |].
    + destruct (is_Exception e).
      * exists [error_event closure]. unfold except_clause.
        destruct (sink_raises _ (error_event closure)); simpl;
          rewrite <- app_assoc; (split; [done | split; [by right | done]]).
      * exists []. simpl. split; [done | split; [by left | done]].
    + exists []. simpl. split; [done | split; [by left | done]].
  - intros k Hv He. rewrite initial_attributes_lookup.
    by repeat case_decide.
  - intros method Hm. subst reported.
    rewrite add_request_attributes_lookup, Hm.
    repeat (case_decide; try done).
  - intros Hws. subst reported.
    rewrite add_request_attributes_lookup, Hws.
    repeat (case_decide; try done).
  - intros route Hroute. subst reported.
    rewrite !add_request_attributes_lookup, Hroute.
    repeat (case_decide; try done).
    by destruct route as [p n [op |]].
  - intros Hroute k Hk. subst reported.
    rewrite add_request_attributes_lookup, Hroute.
    repeat (case_decide; try done).
Qed.

(** ** The endpoint-invocation stage *)

Section Endpoint.
Variable default_logfire : Logfire.
Variable closure : Activation.
Variable original : Dependant -> Values -> Kwargs -> M World pyval.
Variable dependant : Dependant.
Variable values : Values.
Variable kwargs : Kwargs.
Variable w : World.

Local Abbreviation template := "{method} {route} endpoint function".

Lemma endpoint_in_span req method route :
  request values = Some req ->
  app req = the_app closure ->
  connection req = IsRequest method ->
  scope_route req = Some route ->
  patched_run_endpoint_function default_logfire closure original
    dependant values kwargs w
  = match original dependant values kwargs
            (emit (SpanOpen (tags default_logfire) template method
                     (path route)) w) with
    | (Return v, w') =>
        (Return v, emit (SpanClose (tags default_logfire) template None) w')
    | (Raise e, w') =>
        (Raise e,
         emit (SpanClose (tags default_logfire) template (Some e)) w')
    end.
Proof.
  intros Hvalues Happ Hconn Hroute.
  unfold patched_run_endpoint_function, bind, lift, method_of.
  rewrite Hvalues, (bool_decide_eq_true_2 _ Happ), Hconn, Hroute.
  reflexivity.
Qed.

Lemma endpoint_pass_through :
  request values = None \/
  (exists req, request values = Some req /\ app req <> the_app closure) ->
  patched_run_endpoint_function default_logfire closure original
    dependant values kwargs w
  = original dependant values kwargs w.
Proof.
  unfold patched_run_endpoint_function, bind, lift.
  intros [-> | (req & -> & Happ)]; [reflexivity |].
  by rewrite (bool_decide_eq_false_2 _ Happ).
Qed.

End Endpoint.



(** ** Activation and deactivation *)

Lemma read_cell_write cell b w :
  read_cell (write_cell cell b w) cell
  = if decide (cell < length (cells w)) then b else false.
Proof.
  unfold read_cell, write_cell. simpl. case_decide as Hlt.
  - by rewrite list_lookup_insert_eq.
  - rewrite list_insert_ge by lia.
    by rewrite lookup_ge_None_2 by lia.
Qed.

Lemma read_cell_write_ne cell cell' b w :
  cell' <> cell -> read_cell (write_cell cell b w) cell' = read_cell w cell'.
Proof.
  intros Hne. unfold read_cell, write_cell. simpl.
  by rewrite list_lookup_insert_ne.
Qed.

(** A patch whose flag is false hands back what the function under it
    did, result or exception, and the world with it. *)
Lemma solve_flag_off closure
    (original : Request -> Kwargs -> M World SolveResult)
    request kwargs w r w1 :
  original request kwargs w = (r, w1) ->
  read_cell w1 (instrumenting closure) = false ->
  patched_solve_dependencies closure original request kwargs w = (r, w1).
Proof.
  intros Horiginal Hflag. destruct r as [result | e].
  - apply solve_gate_closed; auto.
  - by apply solve_host_raises.
Qed.

(** Leaving [uninstrument_context]. *)
Lemma uninstrument_context_exit cm A (body : M World A) w :
  let left := uninstrument_context cm body w in
  fst left = fst (body w) /\
  solve_dependencies (snd left) = solve_dependencies (snd (body w)) /\
  run_endpoint_function (snd left)
  = run_endpoint_function (snd (body w)) /\
  read_cell (snd left) (instrumenting (closure_of cm)) = false /\
  (forall cell,
     cell <> instrumenting (closure_of cm) ->
     read_cell (snd left) cell = read_cell (snd (body w)) cell).
Proof.
  unfold uninstrument_context, try_finally.
  destruct (body w) as [r wb]. cbn [fst snd].
  repeat split.
  - change (read_cell (emit ?e ?w0) ?c) with (read_cell w0 c).
    rewrite read_cell_write. by case_decide.
  - intros cell Hcell.
    change (read_cell (emit ?e ?w0) ?c) with (read_cell w0 c).
    by rewrite read_cell_write_ne.
Qed.

Section Stack.
Variable fastapi_solve : Request -> Kwargs -> M World SolveResult.
Variable fastapi_run_endpoint :
  Dependant -> Values -> Kwargs -> M World pyval.
Variable default_logfire : Logfire.

(** With every flag false the stack of patches is FastAPI's own
    [solve_dependencies]. *)
Lemma solve_stack_all_off f request kwargs w :
  Forall (fun closure =>
            read_cell (snd (fastapi_solve request kwargs w))
              (instrumenting closure) = false)
    (solve_closures f) ->
  call_solve fastapi_solve f request kwargs w
  = fastapi_solve request kwargs w.
Proof.
  induction f as [| closure original IH]; intros Hoff; [reflexivity |].
  simpl in Hoff. apply Forall_cons in Hoff as [Hflag Hoff].
  simpl. specialize (IH Hoff).
  destruct (fastapi_solve request kwargs w) as [r w1] eqn:Hhost.
  by apply solve_flag_off.
Qed.

(** Values that are a plain [dict] go through every endpoint patch. *)
Lemma endpoint_stack_plain_values f dependant values kwargs w :
  request values = None ->
  call_endpoint fastapi_run_endpoint default_logfire f dependant values
    kwargs w
  = fastapi_run_endpoint dependant values kwargs w.
Proof.
  intros Hplain. revert w.
  induction f as [| closure original IH]; intros w; [reflexivity |].
  simpl. rewrite endpoint_pass_through by auto. apply IH.
Qed.

Variable get_excluded_urls : string -> string -> bool.
Variable parse_excluded_urls : string -> string -> bool.

Local Abbreviation instrument_fastapi :=
  (FastAPI.instrument_fastapi get_excluded_urls parse_excluded_urls).

(** C4, as amended.  Every activation puts one more patch on each of
    the two functions, over whatever is there, with a flag of its own
    that is true from then on; earlier flags are left alone.
    Deactivation removes no patch: it sets the flag of its own
    activation to false and leaves the others, and keeps the outcome of
    the body.  A dependency-resolution patch whose flag is false is a
    pass-through, and so is the whole stack when every flag is false;
    the endpoint patch reads no flag and is a pass-through for values
    that are not an [_InstrumentedValues], as they are when no
    activation is on. *)
Theorem activation_stacks_patches logfire_instance app mapper
    use_opentelemetry_instrumentation excluded_urls w :
  let activation :=
    instrument_fastapi logfire_instance app mapper
      use_opentelemetry_instrumentation excluded_urls w in
  let activated := snd activation in
  exists cm,
    fst activation = Return cm /\
    let closure := closure_of cm in
    the_app closure = app /\
    instrumenting closure = length (cells w) /\
    solve_dependencies activated
    = patched_solve_closure closure (solve_dependencies w) /\
    run_endpoint_function activated
    = patched_endpoint_closure closure (run_endpoint_function w) /\
    solve_layers (solve_dependencies activated)
    = S (solve_layers (solve_dependencies w)) /\
    endpoint_layers (run_endpoint_function activated)
    = S (endpoint_layers (run_endpoint_function w)) /\
    read_cell activated (instrumenting closure) = true /\
    (forall cell,
       cell < length (cells w) ->
       read_cell activated cell = read_cell w cell) /\
    (forall A (body : M World A) w2,
       let left := uninstrument_context cm body w2 in
       fst left = fst (body w2) /\
       solve_dependencies (snd left)
       = solve_dependencies (snd (body w2)) /\
       run_endpoint_function (snd left)
       = run_endpoint_function (snd (body w2)) /\
       read_cell (snd left) (instrumenting closure) = false /\
       (forall cell,
          cell <> instrumenting closure ->
          read_cell (snd left) cell = read_cell (snd (body w2)) cell)) /\
    (forall (original : Request -> Kwargs -> M World SolveResult)
            request kwargs w2 r w3,
       original request kwargs w2 = (r, w3) ->
       read_cell w3 (instrumenting closure) = false ->
       patched_solve_dependencies closure original request kwargs w2
       = (r, w3)) /\
    (forall request kwargs w2,
       Forall (fun closure =>
                 read_cell (snd (fastapi_solve request kwargs w2))
                   (instrumenting closure) = false)
         (solve_closures (solve_dependencies w2)) ->
       routing_solve_dependencies fastapi_solve request kwargs w2
       = fastapi_solve request kwargs w2) /\
    (forall dependant values kwargs w2,
       request values = None ->
       routing_run_endpoint_function fastapi_run_endpoint default_logfire
         dependant values kwargs w2
       = fastapi_run_endpoint dependant values kwargs w2).
Proof.
  intros activation activated. subst activated activation.
  unfold FastAPI.instrument_fastapi.
  destruct use_opentelemetry_instrumentation;
    (eexists; split; [reflexivity |]);
    cbn [closure_of snd the_app instrumenting solve_dependencies
           run_endpoint_function solve_layers endpoint_layers emit cells];
    repeat match goal with |- _ /\ _ => split end;
    first
      [ reflexivity
      | by apply uninstrument_context_exit
      | by (intros; eapply solve_flag_off)
      | by (intros; apply solve_stack_all_off)
      | by (intros; apply endpoint_stack_plain_values)
      | (unfold read_cell; cbn [cells emit];
         by rewrite lookup_app_r, Nat.sub_diag by lia)
      | (intros cell Hcell; unfold read_cell; cbn [cells emit];
         by rewrite lookup_app_l by lia) ].
Qed.

End Stack.

End Patches.

(** ** The stages on sample requests *)

Import Samples.

Lemma solve_dependencies_gated_or_opted_out_witness :
  patched_solve_dependencies
    (first_activation accepting_sink _default_request_attributes_mapper)
    (resolving invalid_id) get_item tt pristine
  = (Return invalid_id, pristine) /\
  exists returned,
    patched_solve_dependencies (first_activation accepting_sink opt_out)
      (resolving invalid_id) get_item tt flag_on
    = (Return returned, flag_on) /\
    items (values returned) = items (values invalid_id) /\
    errors returned = errors invalid_id /\
    rest returned = rest invalid_id.
Proof.
  split.
  - apply (proj1 (solve_dependencies_gated_or_opted_out
                    (first_activation accepting_sink
                       _default_request_attributes_mapper)
                    (resolving invalid_id) get_item tt pristine invalid_id
                    pristine eq_refl)).
    left. reflexivity.
  - destruct (proj2 (solve_dependencies_gated_or_opted_out
                       (first_activation accepting_sink opt_out)
                       (resolving invalid_id) get_item tt flag_on invalid_id
                       flag_on eq_refl) None eq_refl eq_refl)
      as (returned & Hstage & Hitems & Herrors & Hrest & _).
    exists returned. repeat split; assumption.
Defined.

(** C6 as worded fails on a [Request] with no route in its scope: the
    method is added all the same. *)
Lemma method_reported_without_route :
  scope_route get_unrouted = None /\
  exists attributes,
    events
      (snd (patched_solve_dependencies
              (first_activation accepting_sink
                 _default_request_attributes_mapper)
              (resolving invalid_id) get_unrouted tt flag_on))
    = [Log ["fastapi"] error "FastAPI arguments" attributes] /\
    attributes !! "http.method" = Some (VStr "GET").
Proof.
  split; [reflexivity |].
  eexists. split; vm_compute; reflexivity.
Qed.

(** [GET /items/{id}] with a validation error: one report, at level
    [error], with the method and the route. *)
Lemma arguments_report_witness :
  let attributes := initial_attributes invalid_id in
  let reported := add_request_attributes get_item attributes in
  (exists tail,
     events
       (snd (patched_solve_dependencies
               (first_activation accepting_sink
                  _default_request_attributes_mapper)
               (resolving invalid_id) get_item tt flag_on))
     = ([] ++ Log ["fastapi"] error "FastAPI arguments" reported :: tail)%list
     /\ tail = []) /\
  reported !! "http.method" = Some (VStr "GET") /\
  reported !! "http.route" = Some (VStr "/items/{id}").
Proof.
  intros attributes reported.
  pose proof (arguments_report
                (first_activation accepting_sink
                   _default_request_attributes_mapper)
                (resolving invalid_id) get_item tt flag_on invalid_id flag_on
                attributes eq_refl eq_refl eq_refl eq_refl eq_refl
                ltac:(vm_compute; reflexivity))
    as ((tail & Hevents & _ & Htail) & _ & Hmethod & _ & Hroute & _).
  split; [| split].
  - exists tail. split; [exact Hevents | exact (Htail eq_refl)].
  - exact (Hmethod "GET" eq_refl).
  - exact (proj1 (Hroute items_route eq_refl)).
Defined.




(** C4 as worded fails on a second activation: both functions are
    patched again, and each activation has a flag of its own, the first
    false and the second still true once the first is deactivated. *)
Lemma second_activation_patches_again :
  let activate :=
    instrument_fastapi no_excluded_urls no_excluded_urls accepting_sink 1
      None false None in
  let twice :=
    snd ((let* _ := activate in activate) pristine) in
  let first_left :=
    snd ((let* cm := activate in
          let* _ := activate in
          uninstrument_context cm (ret tt)) pristine) in
  solve_layers (solve_dependencies twice) = 2 /\
  endpoint_layers (run_endpoint_function twice) = 2 /\
  cells twice = [true; true] /\
  solve_layers (solve_dependencies first_left) = 2 /\
  cells first_left = [false; true].
Proof. vm_compute. repeat split. Qed.

Lemma activation_stacks_patches_witness :
  let activate :=
    instrument_fastapi no_excluded_urls no_excluded_urls accepting_sink 1
      None false None in
  let deactivated :=
    snd ((let* cm := activate in uninstrument_context cm (ret tt)) pristine) in
  solve_layers (solve_dependencies (snd (activate pristine))) = 1 /\
  solve_layers (solve_dependencies deactivated) = 1 /\
  routing_solve_dependencies (resolving invalid_id) get_item tt deactivated
  = resolving invalid_id get_item tt deactivated.
Proof.
  intros activate deactivated.
  destruct (activation_stacks_patches (resolving invalid_id)
              (endpoint_returning VNone) accepting_sink no_excluded_urls
              no_excluded_urls accepting_sink 1 None false None pristine)
    as (cm & _ & _ & _ & _ & _ & Hlayers & _ & _ & _ & _ & _ & Hoff & _).
  split; [exact Hlayers | split; [reflexivity |]].
  apply Hoff. repeat constructor.
Defined.

End FastAPIFacts.

(* ================================================================== *)
(** * Both interceptors: what failures do to the host                  *)
(* ================================================================== *)

Module Transparency.




End Transparency.


(* ================================================================== *)
(** * More about [_async.py]                                           *)
(* ================================================================== *)

Module AsyncMore.
Import Async.

(** ** Floats: signs and the comparison with an [int] *)

Lemma shr_1_nonneg mrs : (0 <= shr_m mrs)%Z -> (0 <= shr_m (shr_1 mrs))%Z.
Proof. destruct mrs as [[| [p | p |] | p] r b]; simpl; lia. Qed.

Lemma iter_pos_shr_1_nonneg p :
  forall mrs, (0 <= shr_m mrs)%Z -> (0 <= shr_m (SpecFloat.iter_pos shr_1 p mrs))%Z.
Proof.
  induction p as [p IH | p IH |]; intros mrs Hm; simpl.
  - by apply IH, IH, shr_1_nonneg.
  - by apply IH, IH.
  - by apply shr_1_nonneg.
Qed.

Lemma shr_fexp_nonneg m e l :
  (0 <= m)%Z -> (0 <= shr_m (fst (shr_fexp prec emax m e l)))%Z.
Proof.
  intros Hm. unfold shr_fexp, shr.
  assert (H0 : (0 <= shr_m (shr_record_of_loc m l))%Z).
  { by destruct l as [| []]. }
  destruct (fexp prec emax (Zdigits2 m + e) - e)%Z; simpl; try done.
  by apply iter_pos_shr_1_nonneg.
Qed.

Lemma round_nearest_even_nonneg m l :
  (0 <= m)%Z -> (0 <= round_nearest_even m l)%Z.
Proof.
  intros Hm. destruct l as [| []]; simpl; try lia.
  destruct (Z.even m); lia.
Qed.

(** Rounding a magnitude keeps the sign it is given. *)
Lemma binary_round_aux_sign sx mx ex lx :
  (0 <= mx)%Z ->
  match binary_round_aux prec emax sx mx ex lx with
  | S754_zero s | S754_infinity s | S754_finite s _ _ => s = sx
  | S754_nan => False
  end.
Proof.
  intros Hm. unfold binary_round_aux.
  pose proof (shr_fexp_nonneg mx ex lx Hm) as H1.
  destruct (shr_fexp prec emax mx ex lx) as [mrs' e'].
  pose proof (shr_fexp_nonneg
                (round_nearest_even (shr_m mrs') (loc_of_shr_record mrs'))
                e' loc_Exact
                (round_nearest_even_nonneg _ _ H1)) as H2.
  destruct (shr_fexp prec emax _ e' loc_Exact) as [mrs'' e''].
  simpl in H2. destruct (shr_m mrs''); [done | | lia].
  by destruct (_ <=? _)%Z.
Qed.

Lemma int_ge_float_mono n n' x :
  (n <= n')%Z -> int_ge_float n x = true -> int_ge_float n' x = true.
Proof.
  intros Hn. destruct x as [s | s | | s m e]; simpl; try done.
  - intros H. apply Z.leb_le in H. apply Z.leb_le. lia.
  - destruct e as [| p | p]; intros H; apply Z.leb_le in H; apply Z.leb_le.
    + lia.
    + lia.
    + pose proof (Z.pow_pos_nonneg 2 (Z.pos p) ltac:(lia) ltac:(lia)). nia.
Qed.

(** The product of a float that is [<= 0] and a positive float is
    [<= 0]. *)
Lemma float_mul_nonpositive x my ey :
  int_ge_float 0 x = true ->
  int_ge_float 0 (float_mul x (S754_finite false my ey)) = true.
Proof.
  destruct x as [s | s | | s m e]; simpl; try done.
  - by intros ->.
  - intros Hx.
    assert (s = true) as ->.
    { destruct s; [done |]. exfalso.
      destruct e as [| p | p]; apply Z.leb_le in Hx; lia. }
    pose proof (binary_round_aux_sign (xorb true false)
                  (Z.pos (m * my)) (e + ey) loc_Exact ltac:(lia)) as Hsign.
    destruct (binary_round_aux prec emax (xorb true false)
                (Z.pos (m * my)) (e + ey) loc_Exact)
      as [s' | s' | | s' m' e']; simpl in Hsign |- *; subst; try done.
    destruct e' as [| p | p]; apply Z.leb_le; lia.
Qed.

Lemma prefix_append s t : String.prefix s (s ++ t) = true.
Proof.
  induction s as [| a s IH]; simpl; [by destruct t |].
  destruct (Ascii.ascii_dec a a); [done | congruence].
Qed.

Lemma prefix_append_more s t u :
  String.prefix s t = true -> String.prefix s (t ++ u) = true.
Proof.
  revert t. induction s as [| a s IH]; intros t; simpl.
  - intros _. by destruct (t ++ u).
  - destruct t as [| b t]; [done |]. simpl.
    destruct (Ascii.ascii_dec a b); [apply IH | done].
Qed.

Lemma chain_ends_unwrapped h f l u :
  wrapped_chain h f l u -> __wrapped__ (h u) = None.
Proof. induction 1; auto. Qed.

Section Resolver.
Variable get_stack_info_from_frame : FrameType -> StackInfo.
Variable get_code_object_info : CodeType -> StackInfo.
Variable recursion_limit : nat.

Local Abbreviation resolve :=
  (_callback_attributes get_stack_info_from_frame get_code_object_info
     recursion_limit).

(** X1.  The name tells the branch taken, and the branch is chosen on
    the callback itself: whatever the resolver returns for a callback
    bound to a task starts with "task ", and for any other callback with
    "callback ", also when the callable it wraps is bound to a task. *)
Theorem callback_name_tells_the_branch h callback r :
  _callback_attributes get_stack_info_from_frame get_code_object_info
    recursion_limit h callback = Return r ->
  ((exists task, __self__ (h callback) = Some (IsTask task)) ->
   String.prefix "task " (name r) = true) /\
  ((forall task, __self__ (h callback) <> Some (IsTask task)) ->
   String.prefix "callback " (name r) = true).
Proof.
  intros Hr. split.
  - intros [task Hself].
    rewrite (AsyncFacts.resolve_task _ _ _ _ _ _ Hself) in Hr.
    injection Hr as <-.
    unfold task_attributes. destruct (get_coro task) as [coro |];
      [| apply prefix_append].
    cbn zeta.
    set (res := match cr_frame coro with Some _ => _ | None => _ end).
    assert (Hname : name res = "task " ++ get_name task)
      by (subst res; by destruct (cr_frame coro)).
    unfold append_function_name.
    destruct (code_function (stack_info res)) as [fn |];
      [case_decide |]; cbn [name]; rewrite Hname;
      [apply prefix_append
      | apply prefix_append_more, prefix_append
      | apply prefix_append].
  - intros Hself.
    rewrite (AsyncFacts.resolve_callable _ _ _ _ _ Hself) in Hr.
    destruct (unwrap recursion_limit h callback) as [u |]; [| done].
    injection Hr as <-. apply prefix_append.
Qed.

(** X2.  A decorated callback is attributed as the function it wraps:
    when neither the callback nor the callable at the end of its chain of
    wrappers is bound to a task, resolving the one and resolving the other
    give the same descriptor; nothing of the wrappers shows. *)
Theorem wrappers_leave_no_trace h callback u :
  (forall task, __self__ (h callback) <> Some (IsTask task)) ->
  (forall task, __self__ (h u) <> Some (IsTask task)) ->
  unwrap recursion_limit h callback = Return u ->
  resolve h callback = resolve h u.
Proof.
  intros Hcallback Hu Hunwrap.
  rewrite (AsyncFacts.resolve_callable _ _ _ _ _ Hcallback), Hunwrap.
  rewrite (AsyncFacts.resolve_callable _ _ _ _ _ Hu).
  destruct (AsyncFacts.unwrap_returns _ _ _ _ Hunwrap) as (l & Hchain & _).
  pose proof (chain_ends_unwrapped _ _ _ _ Hchain) as Hend.
  unfold unwrap. destruct (recursion_limit - 1); simpl; by rewrite Hend.
Qed.

End Resolver.

Lemma callback_name_tells_the_branch_witness :
  String.prefix "task " "task Task-1 (main)" = true /\
  String.prefix "callback " "callback inner" = true.
Proof.
  split.
  - exact (proj1 (callback_name_tells_the_branch Samples.frame_info
                    Samples.code_info 1000 Samples.task_suspended 0 _
                    eq_refl)
             (ex_intro _ _ eq_refl)).
  - exact (proj2 (callback_name_tells_the_branch Samples.frame_info
                    Samples.code_info 1000 Samples.twice_wrapped 0 _
                    eq_refl)
             ltac:(intros task; discriminate)).
Defined.

Lemma wrappers_leave_no_trace_witness :
  _callback_attributes Samples.frame_info Samples.code_info 1000
    Samples.twice_wrapped 0
  = _callback_attributes Samples.frame_info Samples.code_info 1000
      Samples.twice_wrapped 2.
Proof.
  apply (wrappers_leave_no_trace Samples.frame_info Samples.code_info 1000
           Samples.twice_wrapped 0 2);
    [intros task; discriminate | intros task; discriminate | reflexivity].
Defined.

Section Monitor.
Context {Host Value : Type}.
Variable asyncio_Handle_run : Handle -> M (World Host) Value.
Variable get_stack_info_from_frame : FrameType -> StackInfo.
Variable get_code_object_info : CodeType -> StackInfo.
Variable recursion_limit : nat.

Local Abbreviation resolve :=
  (_callback_attributes get_stack_info_from_frame get_code_object_info
     recursion_limit).
Local Abbreviation patched_run :=
  (Async.patched_run (Value := Value) get_stack_info_from_frame
     get_code_object_info recursion_limit).
Local Abbreviation call_run :=
  (Async.call_run asyncio_Handle_run get_stack_info_from_frame
     get_code_object_info recursion_limit).
Local Abbreviation run_handle :=
  (Async.run_handle asyncio_Handle_run get_stack_info_from_frame
     get_code_object_info recursion_limit).

Lemma call_timer_reads_only (timer : Host -> Z * Host) (w : World Host) :
  exists t w',
    call_timer timer w = (Return t, w') /\
    Handle_run w' = Handle_run w /\
    objects w' = objects w /\
    sink_calls w' = sink_calls w.
Proof.
  unfold call_timer. destruct (timer (host w)) as [t h0].
  by repeat eexists.
Qed.

(** X3.  Two monitors, left in the order they were not made for.  With
    [B] activated over [A], leaving [B] and then [A] puts back what
    [Handle._run] was before both.  Leaving [A] first and [B] second ends
    with the patch of [A] installed again, although [A] has been left:
    [B] had captured it as its original. *)
Theorem monitors_left_out_of_order logfire_a slow_a logfire_b slow_b
    (w0 : World Host) :
  let in_order :=
    (let* cm_a := log_slow_callbacks logfire_a slow_a in
     let* cm_b := log_slow_callbacks logfire_b slow_b in
     let* _ := patch_context cm_b (ret tt) in
     patch_context cm_a (ret tt)) w0 in
  let out_of_order :=
    (let* cm_a := log_slow_callbacks logfire_a slow_a in
     let* cm_b := log_slow_callbacks logfire_b slow_b in
     let* _ := patch_context cm_a (ret tt) in
     patch_context cm_b (ret tt)) w0 in
  Handle_run (snd in_order) = Handle_run w0 /\
  Handle_run (snd out_of_order)
  = Handle_run (snd (log_slow_callbacks logfire_a slow_a w0)) /\
  Handle_run (snd out_of_order)
  = patched_run_closure (Handle_run w0) (with_tags logfire_a "slow-async")
      (ns_timestamp_generator logfire_a)
      (float_mul slow_a (float_of_int ONE_SECOND_IN_NANOSECONDS)) /\
  forall self,
    run_handle self (snd out_of_order)
    = patched_run (call_run (Handle_run w0))
        (with_tags logfire_a "slow-async") (ns_timestamp_generator logfire_a)
        (float_mul slow_a (float_of_int ONE_SECOND_IN_NANOSECONDS)) self
        (snd out_of_order).
Proof. repeat split. Qed.

(** X4.  Running a handle under the patch touches nothing but the timer
    and the reports: [Handle._run] and the objects are as the original run
    left them, the reports made so far are all still there with at most one
    added, and when the original raised the patch adds nothing at all. *)
Theorem patched_run_touches_only_reports
    (original_run : Handle -> M (World Host) Value) logfire timer
    slow_duration self w :
  let ran := original_run self (snd (call_timer timer w)) in
  let after := patched_run original_run logfire timer slow_duration self w in
  Handle_run (snd after) = Handle_run (snd ran) /\
  objects (snd after) = objects (snd ran) /\
  (exists reports,
     sink_calls (snd after) = (sink_calls (snd ran) ++ reports)%list /\
     length reports <= 1) /\
  (forall e, fst ran = Raise e -> after = ran).
Proof.
  intros ran after.
  destruct (call_timer_reads_only timer w)
    as (start_time & w1 & Hstart & _ & _ & _).
  subst ran. rewrite Hstart. cbn [snd].
  destruct (original_run self w1) as [[return_value | e] w2] eqn:Horig.
  - destruct (call_timer_reads_only timer w2)
      as (now & w3 & Hnow & Hrun3 & Hobjects3 & Hcalls3).
    cbn [fst snd]. rewrite <- Hrun3, <- Hobjects3, <- Hcalls3.
    destruct (int_ge_float (now - start_time) slow_duration) eqn:Hge;
      subst after.
    + erewrite AsyncFacts.patched_run_at_threshold by done.
      rewrite AsyncFacts.report_slow_callback_unfold.
      destruct (int_truediv _ _) as [seconds | e].
      * destruct (resolve _ _) as [attributes | e].
        -- destruct (sink_raises _ _) as [e |]; [destruct (is_Exception e) |];
             (repeat split; try done; eexists [_]; split;
              [done | simpl; lia]).
        -- destruct (is_Exception e);
             (repeat split; try done; exists []; rewrite app_nil_r;
              split; [done | simpl; lia]).
      * destruct (is_Exception e);
          (repeat split; try done; exists []; rewrite app_nil_r;
           split; [done | simpl; lia]).
    + erewrite AsyncFacts.patched_run_below_threshold by done.
      repeat split; try done. exists []. rewrite app_nil_r.
      split; [done | simpl; lia].
  - subst after.
    erewrite AsyncFacts.patched_run_host_raises by done.
    repeat split; try done. exists []. rewrite app_nil_r. split; [done | simpl; lia].
Qed.

(** X5.  A threshold of zero seconds or less ([slow_duration <= 0]):
    under a timer that does not run backwards, every handle that returns
    and whose callback can be resolved is reported, however short its
    run, with the quotient of the float division as its duration (and not
    at all in the one case where that division raises). *)
Theorem nonpositive_threshold_reports_every_run logfire slow_duration
    (w0 : World Host) self w start_time w1 return_value w2 now w3 attributes :
  int_ge_float 0 slow_duration = true ->
  Handle_run w
  = Handle_run (snd (log_slow_callbacks logfire slow_duration w0)) ->
  call_timer (ns_timestamp_generator logfire) w = (Return start_time, w1) ->
  call_run (Handle_run w0) self w1 = (Return return_value, w2) ->
  call_timer (ns_timestamp_generator logfire) w2 = (Return now, w3) ->
  (start_time <= now)%Z ->
  resolve (objects w3) (_callback self) = Return attributes ->
  match int_truediv (now - start_time) ONE_SECOND_IN_NANOSECONDS with
  | Return seconds =>
      sink_calls (snd (run_handle self w))
      = (sink_calls w3
         ++ [slow_report (with_tags logfire "slow-async") seconds
               attributes])%list
  | Raise _ => sink_calls (snd (run_handle self w)) = sink_calls w3
  end.
Proof.
  intros Hslow Hrun Hstart Horig Hnow Hmono Hresolve.
  unfold Async.run_handle. rewrite Hrun. simpl.
  assert (Hge : int_ge_float (now - start_time)
                  (float_mul slow_duration
                     (float_of_int ONE_SECOND_IN_NANOSECONDS)) = true).
  { apply (int_ge_float_mono 0); [lia |].
    by apply (float_mul_nonpositive slow_duration). }
  erewrite AsyncFacts.patched_run_at_threshold by done.
  rewrite AsyncFacts.report_slow_callback_unfold, Hresolve.
  destruct (int_truediv _ _) as [seconds | e] eqn:Hdiv.
  - destruct (sink_raises _ _) as [e |]; [by destruct (is_Exception e) | done].
  - by rewrite (AsyncFacts.int_truediv_raises_Exception _ _ _ Hdiv).
Qed.

(** X17.  [except Exception] in [patched_run]: when the sink raises on
    the report of a slow callback something that is not an instance of
    [Exception], the report has been handed over, and the exception leaves
    the patch in place of the value the handle had returned. *)
Theorem patched_run_lets_through
    (original_run : Handle -> M (World Host) Value) logfire timer
    slow_duration self w start_time w1 return_value w2 now w3 seconds
    attributes e :
  call_timer timer w = (Return start_time, w1) ->
  original_run self w1 = (Return return_value, w2) ->
  call_timer timer w2 = (Return now, w3) ->
  int_ge_float (now - start_time) slow_duration = true ->
  int_truediv (now - start_time) ONE_SECOND_IN_NANOSECONDS = Return seconds ->
  resolve (objects w3) (_callback self) = Return attributes ->
  sink_raises logfire (slow_report logfire seconds attributes) = Some e ->
  is_Exception e = false ->
  patched_run original_run logfire timer slow_duration self w
  = (Raise e, add_report (slow_report logfire seconds attributes) w3).
Proof.
  intros Hstart Horig Hnow Hle Hdiv Hresolve Hsink Hclass.
  erewrite AsyncFacts.patched_run_at_threshold by done.
  rewrite AsyncFacts.report_slow_callback_unfold, Hdiv, Hresolve, Hsink.
  by rewrite Hclass.
Qed.

End Monitor.

Lemma patched_run_lets_through_witness :
  fst (Async.patched_run Samples.frame_info Samples.code_info 1000
         (Samples.blocking_run 2000000000) Samples.interrupted_logfire
         Samples.clock_timer Samples.one_second (mkHandle 0)
         (Samples.unpatched Samples.twice_wrapped))
  = Raise KeyboardInterrupt.
Proof.
  exact (f_equal fst
           (patched_run_lets_through Samples.frame_info Samples.code_info 1000
              (Samples.blocking_run 2000000000) Samples.interrupted_logfire
              Samples.clock_timer Samples.one_second (mkHandle 0)
              (Samples.unpatched Samples.twice_wrapped) 0%Z
              (Samples.unpatched Samples.twice_wrapped) tt
              (snd (Samples.blocking_run 2000000000 (mkHandle 0)
                      (Samples.unpatched Samples.twice_wrapped)))
              2000000000%Z
              (snd (Samples.blocking_run 2000000000 (mkHandle 0)
                      (Samples.unpatched Samples.twice_wrapped)))
              (float_of_int 2)
              (mkAttrs "callback inner" no_stack_info) KeyboardInterrupt
              eq_refl eq_refl eq_refl ltac:(vm_compute; reflexivity)
              ltac:(vm_compute; reflexivity) eq_refl eq_refl eq_refl)).
Defined.

Lemma patched_run_touches_only_reports_witness :
  Async.patched_run Samples.frame_info Samples.code_info 1000
    (Samples.raising_run RuntimeError) Samples.accepting_logfire
    Samples.clock_timer Samples.one_second (mkHandle 0)
    (Samples.unpatched Samples.twice_wrapped)
  = Samples.raising_run RuntimeError (mkHandle 0)
      (Samples.unpatched Samples.twice_wrapped).
Proof.
  exact (proj2 (proj2 (proj2
           (patched_run_touches_only_reports Samples.frame_info
              Samples.code_info 1000 (Samples.raising_run RuntimeError)
              Samples.accepting_logfire Samples.clock_timer
              Samples.one_second (mkHandle 0)
              (Samples.unpatched Samples.twice_wrapped))))
           RuntimeError eq_refl).
Defined.

Lemma nonpositive_threshold_reports_every_run_witness :
  let w :=
    snd (log_slow_callbacks Samples.accepting_logfire Samples.zero_seconds
           (Samples.unpatched Samples.twice_wrapped)) in
  sink_calls
    (snd (run_handle (Samples.blocking_run 0) Samples.frame_info
            Samples.code_info 1000 (mkHandle 0) w))
  = ([] ++ [slow_report (with_tags Samples.accepting_logfire "slow-async")
              Samples.zero_seconds
              (mkAttrs "callback inner" no_stack_info)])%list.
Proof.
  intros w.
  exact (nonpositive_threshold_reports_every_run (Samples.blocking_run 0)
           Samples.frame_info Samples.code_info 1000
           Samples.accepting_logfire Samples.zero_seconds
           (Samples.unpatched Samples.twice_wrapped) (mkHandle 0)
           w 0%Z w tt w 0%Z w (mkAttrs "callback inner" no_stack_info)
           eq_refl eq_refl eq_refl eq_refl eq_refl
           ltac:(lia) eq_refl).
Defined.

End AsyncMore.


(* ================================================================== *)
(** * More about [_fastapi.py]                                         *)
(* ================================================================== *)

Module FastAPIMore.
Import FastAPI.

Lemma initial_attributes_truthy result :
  truthy (VDict (initial_attributes result)) = true.
Proof.
  unfold truthy. rewrite bool_decide_eq_false_2; [done |].
  intros Hsize. apply map_size_empty_inv in Hsize.
  pose proof (FastAPIFacts.initial_attributes_lookup result "errors") as H.
  rewrite Hsize, lookup_empty in H. by case_decide.
Qed.

Lemma initial_attributes_level result :
  report_level (initial_attributes result)
  = match errors result with [] => debug | _ => error end.
Proof.
  unfold report_level.
  rewrite FastAPIFacts.initial_attributes_lookup.
  case_decide; [| done]. simpl. by destruct (errors result).
Qed.

Lemma initial_attributes_of_returned request result :
  initial_attributes (returned_result request result)
  = initial_attributes result.
Proof. unfold returned_result. by destruct (is_Request request). Qed.

Lemma returned_result_idempotent request result :
  returned_result request (returned_result request result)
  = returned_result request result.
Proof. unfold returned_result. by destruct (is_Request request). Qed.

(** X6.  What the mapper is given to log: under "errors" the
    validation errors, and under "values" exactly the resolved values that
    are not a [Request], [WebSocket], [BackgroundTasks], [SecurityScopes] or
    [Response]; every other value is there under its own key. *)
Theorem logged_values_leave_out_framework_objects result :
  exists logged,
    initial_attributes result !! "values" = Some (VDict logged) /\
    initial_attributes result !! "errors" = Some (VList (errors result)) /\
    (forall k v,
       logged !! k = Some v <->
       items (values result) !! k = Some v /\ is_framework_object v = false) /\
    (forall k id,
       logged !! k <> Some (VObject cls_Request id) /\
       logged !! k <> Some (VObject cls_WebSocket id) /\
       logged !! k <> Some (VObject cls_BackgroundTasks id) /\
       logged !! k <> Some (VObject cls_SecurityScopes id) /\
       logged !! k <> Some (VObject cls_Response id)) /\
    (forall k name id,
       items (values result) !! k = Some (VObject (cls_other name) id) ->
       logged !! k = Some (VObject (cls_other name) id)).
Proof.
  eexists. split; [| split; [| split; [| split]]].
  - rewrite FastAPIFacts.initial_attributes_lookup. by repeat case_decide.
  - rewrite FastAPIFacts.initial_attributes_lookup. by repeat case_decide.
  - intros k v. by rewrite map_lookup_filter_Some.
  - intros k id.
    repeat split; intros H; apply map_lookup_filter_Some in H as [_ H];
      discriminate H.
  - intros k name id H. by apply map_lookup_filter_Some.
Qed.

Section Patches.
Context {Kwargs Dependant : Type}.

(** X7.  With the default mapper no request is opted out: every
    request past the gate is reported once, with the bundle of values and
    errors and the request attributes, at level [error] when there is a
    validation error and [debug] when there is none; when the sink accepts
    the report nothing else is emitted and the framework gets its result. *)
Theorem default_mapper_reports_every_request closure
    (original : Request -> Kwargs -> M World SolveResult)
    request kwargs w result w1 :
  request_attributes_mapper closure = _default_request_attributes_mapper ->
  original request kwargs w = (Return result, w1) ->
  read_cell w1 (instrumenting closure) = true ->
  app request = the_app closure ->
  url_disabled closure (url request) = false ->
  let stage := patched_solve_dependencies closure original request kwargs w in
  let level := match errors result with [] => debug | _ => error end in
  let report :=
    Log (tags (logfire_instance closure)) level "FastAPI arguments"
      (add_request_attributes request (initial_attributes result)) in
  exists tail,
    events (snd stage) = (events w1 ++ report :: tail)%list /\
    (sink_raises (logfire_instance closure) report = None ->
     tail = [] /\ fst stage = Return (returned_result request result)).
Proof.
  intros Hmapper Horiginal Hflag Happ Hurl stage level report. subst stage.
  rewrite (FastAPIFacts.solve_gate_open _ _ _ _ _ _ _ Horiginal Hflag Happ
             Hurl), Hmapper.
  unfold _default_request_attributes_mapper.
  rewrite initial_attributes_truthy. cbn zeta.
  unfold arguments_event. rewrite initial_attributes_level.
  fold level. fold report.
  destruct (sink_raises (logfire_instance closure) report) as [e |].
  - destruct (is_Exception e).
    + exists [error_event closure]. unfold except_clause.
      split; [| done].
      destruct (sink_raises _ (error_event closure)); simpl;
        by rewrite <- app_assoc.
    + exists []. by split.
  - exists []. by split.
Qed.

(** X8.  A WebSocket connection is never given the
    [_InstrumentedValues] wrapper: whenever the stage returns, it returns
    the very result of the original resolution, and the endpoint stage then
    runs the endpoint on its plain values under no span. *)
Theorem websocket_result_is_untouched default_logfire closure
    (original : Request -> Kwargs -> M World SolveResult)
    request kwargs w result w1 returned w2 :
  connection request = IsWebSocket ->
  original request kwargs w = (Return result, w1) ->
  patched_solve_dependencies closure original request kwargs w
  = (Return returned, w2) ->
  returned = result /\
  (FastAPI.request (values result) = None ->
   forall (endpoint : Dependant -> Values -> Kwargs -> M World pyval)
          dependant kwargs' w',
     patched_run_endpoint_function default_logfire closure endpoint dependant
       (values returned) kwargs' w'
     = endpoint dependant (values returned) kwargs' w').
Proof.
  intros Hws Horiginal Hstage.
  assert (Hreturned : returned = result).
  { rewrite (FastAPIFacts.solve_cases _ _ _ _ _ _ _ Horiginal) in Hstage.
    assert (Hres : returned_result request result = result)
      by (unfold returned_result, is_Request; by rewrite Hws).
    rewrite Hres in Hstage. unfold except_clause in Hstage.
    repeat match type of Hstage with
           | context [match ?x with _ => _ end] => destruct x
           | context [if ?x then _ else _] => destruct x
           end; cbn zeta in Hstage; congruence. }
  split; [done |]. subst returned.
  intros Hplain endpoint dependant kwargs' w'.
  apply FastAPIFacts.endpoint_pass_through. by left.
Qed.

(** X9.  Handling a request never switches instrumentation on or off
    and never patches anything: after the stage the two functions of
    [fastapi.routing] and every flag are as the original resolution left
    them; the events are those it left, followed by at most two (the
    arguments report, the error diagnostic), and by none when the original
    resolution raised. *)
Theorem solve_stage_touches_only_events closure
    (original : Request -> Kwargs -> M World SolveResult)
    request kwargs w :
  let ran := original request kwargs w in
  let after :=
    snd (patched_solve_dependencies closure original request kwargs w) in
  solve_dependencies after = solve_dependencies (snd ran) /\
  run_endpoint_function after = run_endpoint_function (snd ran) /\
  cells after = cells (snd ran) /\
  exists tail,
    events after = (events (snd ran) ++ tail)%list /\
    length tail <= 2 /\
    (forall e, fst ran = Raise e -> tail = []).
Proof.
  intros ran after. subst ran after.
  destruct (original request kwargs w) as [[result | e] w1] eqn:Horiginal.
  - rewrite (FastAPIFacts.solve_cases _ _ _ _ _ _ _ Horiginal).
    unfold except_clause. cbn [fst snd].
    repeat match goal with
           | |- context [match ?x with _ => _ end] => destruct x
           | |- context [if ?x then _ else _] => destruct x
           end; cbn zeta; cbn [snd emit solve_dependencies
                                 run_endpoint_function cells events];
      (repeat split; try done);
      first
        [ (exists []; rewrite app_nil_r;
           split; [done | split; [simpl; lia | done]])
        | (eexists [_]; split; [done | split; [simpl; lia | done]])
        | (eexists [_; _]; rewrite <- app_assoc;
           split; [done | split; [simpl; lia | done]]) ].
  - rewrite (FastAPIFacts.solve_host_raises _ _ _ _ _ _ _ Horiginal).
    cbn [fst snd]. repeat split; try done.
    exists []. rewrite app_nil_r. split; [done | split; [simpl; lia | done]].
Qed.

(** X11.  Two activations for the same app, both on: the request is
    reported twice, by the patch installed first and then by the one
    installed over it, each with the bundle of its own mapper; the second
    mapper is given the same values and errors as the first, and the
    framework gets the result wrapped once. *)
Theorem two_activations_report_twice inner outer
    (original : Request -> Kwargs -> M World SolveResult)
    request kwargs w result w1 attributes_inner attributes_outer :
  original request kwargs w = (Return result, w1) ->
  read_cell w1 (instrumenting inner) = true ->
  read_cell w1 (instrumenting outer) = true ->
  app request = the_app inner ->
  app request = the_app outer ->
  url_disabled inner (url request) = false ->
  url_disabled outer (url request) = false ->
  request_attributes_mapper inner request (initial_attributes result)
  = Return (Some attributes_inner) ->
  truthy (VDict attributes_inner) = true ->
  request_attributes_mapper outer request (initial_attributes result)
  = Return (Some attributes_outer) ->
  truthy (VDict attributes_outer) = true ->
  sink_raises (logfire_instance inner)
    (arguments_event inner request attributes_inner) = None ->
  sink_raises (logfire_instance outer)
    (arguments_event outer request attributes_outer) = None ->
  patched_solve_dependencies outer
    (patched_solve_dependencies inner original) request kwargs w
  = (Return (returned_result request result),
     emit (arguments_event outer request attributes_outer)
       (emit (arguments_event inner request attributes_inner) w1)).
Proof.
  intros Horiginal Hflag_in Hflag_out Happ_in Happ_out Hurl_in Hurl_out
    Hmap_in Htruthy_in Hmap_out Htruthy_out Hsink_in Hsink_out.
  assert (Hinner :
            patched_solve_dependencies inner original request kwargs w
            = (Return (returned_result request result),
               emit (arguments_event inner request attributes_inner) w1)).
  { rewrite (FastAPIFacts.solve_gate_open _ _ _ _ _ _ _ Horiginal Hflag_in
               Happ_in Hurl_in), Hmap_in, Htruthy_in.
    cbn zeta. by rewrite Hsink_in. }
  rewrite (FastAPIFacts.solve_gate_open _ _ _ _ _ _ _ Hinner Hflag_out
             Happ_out Hurl_out).
  rewrite initial_attributes_of_returned, Hmap_out, Htruthy_out.
  cbn zeta. by rewrite Hsink_out, returned_result_idempotent.
Qed.

(** X12.  The endpoint patch reads no flag.  Two patches for the same
    app, whether or not their activations are still on, each open a span
    around an endpoint called with instrumented values: the endpoint runs
    inside two spans of the same name, closed in turn after it. *)
Theorem stacked_endpoint_patches_nest_spans default_logfire outer inner
    (endpoint : Dependant -> Values -> Kwargs -> M World pyval)
    dependant values kwargs w req method route :
  FastAPI.request values = Some req ->
  app req = the_app outer ->
  app req = the_app inner ->
  connection req = IsRequest method ->
  scope_route req = Some route ->
  let open_event :=
    SpanOpen (tags default_logfire) "{method} {route} endpoint function"
      method (path route) in
  let inside :=
    endpoint dependant values kwargs (emit open_event (emit open_event w)) in
  let close_event :=
    SpanClose (tags default_logfire) "{method} {route} endpoint function"
      match fst inside with Return _ => None | Raise e => Some e end in
  patched_run_endpoint_function default_logfire outer
    (patched_run_endpoint_function default_logfire inner endpoint)
    dependant values kwargs w
  = (fst inside, emit close_event (emit close_event (snd inside))).
Proof.
  intros Hvalues Happ_out Happ_in Hconn Hroute open_event inside close_event.
  rewrite (FastAPIFacts.endpoint_in_span default_logfire outer _ dependant
             values kwargs w req method route Hvalues Happ_out Hconn Hroute).
  rewrite (FastAPIFacts.endpoint_in_span default_logfire inner _ dependant
             values kwargs _ req method route Hvalues Happ_in Hconn Hroute).
  fold open_event. fold inside. subst close_event.
  by destruct inside as [[v | e] w'].
Qed.

(** X14.  What the [except] clause does not hold back.  Past the gate,
    an exception of the mapper or of the arguments report that is not an
    instance of [Exception] leaves the stage as it is, with no diagnostic;
    and when the diagnostic call itself raises, its exception leaves the
    stage in place of the one that was being reported. *)
Theorem solve_stage_lets_through closure
    (original : Request -> Kwargs -> M World SolveResult)
    request kwargs w result w1 :
  original request kwargs w = (Return result, w1) ->
  read_cell w1 (instrumenting closure) = true ->
  app request = the_app closure ->
  url_disabled closure (url request) = false ->
  let stage := patched_solve_dependencies closure original request kwargs w in
  let sink := logfire_instance closure in
  (forall e,
     request_attributes_mapper closure request (initial_attributes result)
     = Raise e ->
     (is_Exception e = false -> stage = (Raise e, w1)) /\
     (forall e',
        is_Exception e = true ->
        sink_raises sink (error_event closure) = Some e' ->
        stage = (Raise e', emit (error_event closure) w1))) /\
  (forall attributes e,
     request_attributes_mapper closure request (initial_attributes result)
     = Return (Some attributes) ->
     truthy (VDict attributes) = true ->
     sink_raises sink (arguments_event closure request attributes) = Some e ->
     (is_Exception e = false ->
      stage = (Raise e, emit (arguments_event closure request attributes) w1))
     /\
     (forall e',
        is_Exception e = true ->
        sink_raises sink (error_event closure) = Some e' ->
        stage
        = (Raise e',
           emit (error_event closure)
             (emit (arguments_event closure request attributes) w1)))).
Proof.
  intros Horiginal Hflag Happ Hurl stage sink. subst stage.
  rewrite (FastAPIFacts.solve_gate_open _ _ _ _ _ _ _ Horiginal Hflag Happ
             Hurl).
  unfold except_clause. fold sink. split.
  - intros e Hmapper. rewrite Hmapper. split.
    + by intros ->.
    + intros e' -> Hdiagnostic. by rewrite Hdiagnostic.
  - intros attributes e Hmapper Htruthy Hreport.
    rewrite Hmapper, Htruthy. cbn zeta. rewrite Hreport. split.
    + by intros ->.
    + intros e' -> Hdiagnostic. by rewrite Hdiagnostic.
Qed.

(** X15.  The first stage reads the route with [scope.get('route')] and
    wraps the values of a [Request] that has none; the second stage reads
    [scope['route']]: given such values it raises [KeyError] before the
    endpoint is called, and no span is opened. *)
Theorem unrouted_request_breaks_the_endpoint_stage default_logfire closure
    (original : Request -> Kwargs -> M World SolveResult)
    (endpoint : Dependant -> Values -> Kwargs -> M World pyval)
    request kwargs w result w1 method returned w2 dependant kwargs' w' :
  original request kwargs w = (Return result, w1) ->
  read_cell w1 (instrumenting closure) = true ->
  app request = the_app closure ->
  url_disabled closure (url request) = false ->
  connection request = IsRequest method ->
  scope_route request = None ->
  patched_solve_dependencies closure original request kwargs w
  = (Return returned, w2) ->
  patched_run_endpoint_function default_logfire closure endpoint dependant
    (values returned) kwargs' w'
  = (Raise KeyError, w').
Proof.
  intros Horiginal Hflag Happ Hurl Hconn Hroute Hstage.
  rewrite (FastAPIFacts.solve_gate_open_returns _ _ _ _ _ _ _ Horiginal Hflag
             Happ Hurl _ _ Hstage).
  unfold returned_result, is_Request. rewrite Hconn.
  unfold patched_run_endpoint_function, bind, lift, method_of.
  cbn [values instrumented_result _InstrumentedValues FastAPI.request].
  by rewrite (bool_decide_eq_true_2 _ Happ), Hconn, Hroute.
Qed.

Section RoundTrip.
Variable fastapi_solve : Request -> Kwargs -> M World SolveResult.
Variable get_excluded_urls : string -> string -> bool.
Variable parse_excluded_urls : string -> string -> bool.

(** X16.  Activation followed by deactivation, on a [fastapi.routing]
    that was not patched before: as long as FastAPI's own resolution leaves
    the flags alone, a request is then resolved exactly as by FastAPI alone,
    result, exception and world, although the patch is still installed. *)
Theorem activation_then_deactivation_is_inert logfire_instance app mapper
    use_opentelemetry_instrumentation excluded_urls w request kwargs :
  solve_dependencies w = fastapi_solve_dependencies ->
  let left :=
    snd ((let* cm :=
            instrument_fastapi get_excluded_urls parse_excluded_urls
              logfire_instance app mapper use_opentelemetry_instrumentation
              excluded_urls in
          uninstrument_context cm (ret tt)) w) in
  cells (snd (fastapi_solve request kwargs left)) = cells left ->
  solve_layers (solve_dependencies left) = 1 /\
  routing_solve_dependencies fastapi_solve request kwargs left
  = fastapi_solve request kwargs left.
Proof.
  intros Hpristine left Hcells.
  assert (Hstack : exists closure,
             solve_dependencies left
             = patched_solve_closure closure fastapi_solve_dependencies /\
             read_cell left (instrumenting closure) = false).
  { subst left.
    unfold instrument_fastapi, uninstrument_context, try_finally, bind, ret.
    cbn [snd closure_of instrumenting the_app].
    eexists. split.
    - destruct use_opentelemetry_instrumentation;
        cbn [solve_dependencies emit write_cell]; by rewrite Hpristine.
    - destruct use_opentelemetry_instrumentation;
        unfold read_cell, write_cell; cbn [cells emit];
        by rewrite list_lookup_insert_eq by (rewrite length_app; simpl; lia). }
  destruct Hstack as (closure & Hstack & Hflag).
  split; [by rewrite Hstack |].
  unfold routing_solve_dependencies. rewrite Hstack.
  cbn [call_solve].
  destruct (fastapi_solve request kwargs left) as [r w1] eqn:Hhost.
  apply FastAPIFacts.solve_flag_off; [done |].
  unfold read_cell. cbn [snd] in Hcells. by rewrite Hcells.
Qed.

End RoundTrip.

Section Activation.
Variable get_excluded_urls : string -> string -> bool.
Variable parse_excluded_urls : string -> string -> bool.

(** X13.  What an activation hands on.  The OpenTelemetry instrumentor
    is called only when asked for, with the excluded URLs as one string, a
    list of them joined by commas; the patch excludes by the same string,
    or by the FASTAPI setting of the environment when none is given; its
    sink is the instance tagged "fastapi" and its mapper the one given or
    the default.  Leaving the context manager calls [uninstrument_app]
    whether or not the instrumentor had been called. *)
Theorem activation_hands_on_its_arguments logfire_instance app mapper
    use_opentelemetry_instrumentation excluded_urls w :
  let joined :=
    match excluded_urls with
    | Some (urls_iterable l) => Some (String.concat "," l)
    | Some (urls_str s) => Some s
    | None => None
    end in
  let activate :=
    instrument_fastapi get_excluded_urls parse_excluded_urls logfire_instance
      app mapper use_opentelemetry_instrumentation excluded_urls in
  (exists cm,
     fst (activate w) = Return cm /\
     url_disabled (closure_of cm)
     = match joined with
       | Some s => parse_excluded_urls s
       | None => get_excluded_urls "FASTAPI"
       end /\
     tags (FastAPI.logfire_instance (closure_of cm))
     = (tags logfire_instance ++ ["fastapi"])%list /\
     request_attributes_mapper (closure_of cm)
     = default _default_request_attributes_mapper mapper) /\
  events (snd (activate w))
  = (events w
     ++ if use_opentelemetry_instrumentation
        then [InstrumentApp app joined] else [])%list /\
  events (snd ((let* cm := activate in uninstrument_context cm (ret tt)) w))
  = (events (snd (activate w)) ++ [UninstrumentApp app])%list.
Proof.
  intros joined activate. subst joined activate.
  unfold instrument_fastapi, uninstrument_context, try_finally, bind, ret.
  destruct use_opentelemetry_instrumentation, excluded_urls as [[s | l] |];
    cbn [fst snd events emit closure_of the_app url_disabled
           FastAPI.logfire_instance request_attributes_mapper with_tags tags
           write_cell];
    rewrite ?app_nil_r; (split; [by eexists | by split]).
Qed.

End Activation.

End Patches.

Import Samples.

Lemma logged_values_leave_out_framework_objects_witness :
  exists logged,
    initial_attributes request_and_id !! "values" = Some (VDict logged) /\
    logged !! "id" = Some (VInt 7) /\
    logged !! "request" <> Some (VObject cls_Request 0).
Proof.
  destruct (logged_values_leave_out_framework_objects request_and_id)
    as (logged & Hvalues & _ & Hiff & Hout & _).
  exists logged. split; [exact Hvalues | split].
  - apply Hiff. split; [vm_compute; reflexivity | reflexivity].
  - exact (proj1 (Hout "request" 0)).
Defined.

Lemma solve_stage_touches_only_events_witness :
  events
    (snd (patched_solve_dependencies
            (first_activation accepting_sink
               _default_request_attributes_mapper)
            (failing_resolution ValueError) get_item tt flag_on))
  = events flag_on.
Proof.
  destruct (solve_stage_touches_only_events
              (first_activation accepting_sink
                 _default_request_attributes_mapper)
              (failing_resolution ValueError) get_item tt flag_on)
    as (_ & _ & _ & tail & Hevents & _ & Hraised).
  rewrite (Hraised ValueError eq_refl), app_nil_r in Hevents.
  exact Hevents.
Defined.

Lemma solve_stage_lets_through_witness :
  patched_solve_dependencies
    (first_activation accepting_sink (raising_mapper KeyboardInterrupt))
    (resolving invalid_id) get_item tt flag_on
  = (Raise KeyboardInterrupt, flag_on) /\
  patched_solve_dependencies
    (first_activation failing_sink (raising_mapper ValueError))
    (resolving invalid_id) get_item tt flag_on
  = (Raise RuntimeError,
     emit (LogException ["fastapi"] "Error logging FastAPI arguments")
       flag_on).
Proof.
  split.
  - exact (proj1 (proj1 (solve_stage_lets_through
                           (first_activation accepting_sink
                              (raising_mapper KeyboardInterrupt))
                           (resolving invalid_id) get_item tt flag_on
                           invalid_id flag_on eq_refl eq_refl eq_refl eq_refl)
                    KeyboardInterrupt eq_refl) eq_refl).
  - exact (proj2 (proj1 (solve_stage_lets_through
                           (first_activation failing_sink
                              (raising_mapper ValueError))
                           (resolving invalid_id) get_item tt flag_on
                           invalid_id flag_on eq_refl eq_refl eq_refl eq_refl)
                    ValueError eq_refl) RuntimeError eq_refl eq_refl).
Defined.

Lemma unrouted_request_breaks_the_endpoint_stage_witness :
  patched_run_endpoint_function accepting_sink
    (first_activation accepting_sink opt_out) (endpoint_returning VNone) tt
    (values (instrumented_result get_unrouted invalid_id)) tt flag_on
  = (Raise KeyError, flag_on).
Proof.
  exact (unrouted_request_breaks_the_endpoint_stage accepting_sink
           (first_activation accepting_sink opt_out) (resolving invalid_id)
           (endpoint_returning VNone) get_unrouted tt flag_on invalid_id
           flag_on "GET" (instrumented_result get_unrouted invalid_id) flag_on
           tt tt flag_on eq_refl eq_refl eq_refl eq_refl eq_refl eq_refl
           eq_refl).
Defined.

Lemma activation_then_deactivation_is_inert_witness :
  let left :=
    snd ((let* cm :=
            instrument_fastapi no_excluded_urls no_excluded_urls
              accepting_sink 1 None true None in
          uninstrument_context cm (ret tt)) pristine) in
  routing_solve_dependencies (resolving invalid_id) get_item tt left
  = resolving invalid_id get_item tt left.
Proof.
  intros left.
  exact (proj2 (activation_then_deactivation_is_inert (resolving invalid_id)
                  no_excluded_urls no_excluded_urls accepting_sink 1 None true
                  None pristine get_item tt eq_refl eq_refl)).
Defined.

Lemma default_mapper_reports_every_request_witness :
  events
    (snd (patched_solve_dependencies
            (first_activation accepting_sink
               _default_request_attributes_mapper)
            (resolving invalid_id) open_feed tt flag_on))
  = [Log ["fastapi"] error "FastAPI arguments"
       (add_request_attributes open_feed (initial_attributes invalid_id))].
Proof.
  destruct (default_mapper_reports_every_request
              (first_activation accepting_sink
                 _default_request_attributes_mapper)
              (resolving invalid_id) open_feed tt flag_on invalid_id flag_on
              eq_refl eq_refl eq_refl eq_refl eq_refl)
    as (tail & Hevents & Haccepted).
  destruct (Haccepted eq_refl) as [-> _]. exact Hevents.
Defined.

Lemma websocket_result_is_untouched_witness :
  fst (patched_solve_dependencies
         (first_activation accepting_sink
            _default_request_attributes_mapper)
         (resolving invalid_id) open_feed tt flag_on)
  = Return invalid_id.
Proof.
  destruct (patched_solve_dependencies
              (first_activation accepting_sink
                 _default_request_attributes_mapper)
              (resolving invalid_id) open_feed tt flag_on)
    as [[returned | e] w2] eqn:Hstage.
  - destruct (websocket_result_is_untouched (Dependant := unit) accepting_sink
                (first_activation accepting_sink
                   _default_request_attributes_mapper)
                (resolving invalid_id) open_feed tt flag_on invalid_id flag_on
                returned w2 eq_refl eq_refl Hstage) as [-> _].
    reflexivity.
  - vm_compute in Hstage. discriminate Hstage.
Defined.

Lemma two_activations_report_twice_witness :
  events
    (snd (patched_solve_dependencies
            (second_activation accepting_sink
               _default_request_attributes_mapper)
            (patched_solve_dependencies
               (first_activation accepting_sink
                  _default_request_attributes_mapper)
               (resolving invalid_id))
            get_item tt both_flags_on))
  = [Log ["fastapi"] error "FastAPI arguments"
       (add_request_attributes get_item (initial_attributes invalid_id));
     Log ["fastapi"] error "FastAPI arguments"
       (add_request_attributes get_item (initial_attributes invalid_id))].
Proof.
  exact (f_equal (fun r => events (snd r))
           (two_activations_report_twice
              (first_activation accepting_sink
                 _default_request_attributes_mapper)
              (second_activation accepting_sink
                 _default_request_attributes_mapper)
              (resolving invalid_id) get_item tt both_flags_on invalid_id
              both_flags_on (initial_attributes invalid_id)
              (initial_attributes invalid_id)
              eq_refl eq_refl eq_refl eq_refl eq_refl eq_refl eq_refl eq_refl
              (initial_attributes_truthy invalid_id) eq_refl
              (initial_attributes_truthy invalid_id) eq_refl eq_refl)).
Defined.

Lemma stacked_endpoint_patches_nest_spans_witness :
  events
    (snd (patched_run_endpoint_function accepting_sink
            (second_activation accepting_sink opt_out)
            (patched_run_endpoint_function accepting_sink
               (first_activation accepting_sink opt_out)
               (endpoint_returning VNone))
            tt (_InstrumentedValues (mkValues ∅ None) get_item) tt pristine))
  = [SpanOpen [] "{method} {route} endpoint function" "GET" "/items/{id}";
     SpanOpen [] "{method} {route} endpoint function" "GET" "/items/{id}";
     SpanClose [] "{method} {route} endpoint function" None;
     SpanClose [] "{method} {route} endpoint function" None].
Proof.
  exact (f_equal (fun r => events (snd r))
           (stacked_endpoint_patches_nest_spans accepting_sink
              (second_activation accepting_sink opt_out)
              (first_activation accepting_sink opt_out)
              (endpoint_returning VNone) tt
              (_InstrumentedValues (mkValues ∅ None) get_item) tt pristine
              get_item "GET" items_route eq_refl eq_refl eq_refl eq_refl
              eq_refl)).
Defined.

End FastAPIMore.
